(** * EA_Summarizer: executive-orders scraper and dashboard

    A shallow embedding of [src/EA_Summarizer.py].  The script is a
    sequential scrape / fetch / summarise loop followed by a table render.
    Everything it obtains from outside (HTTP responses, the parsed HTML
    that BeautifulSoup hands back, the summarisation model, ISO date
    parsing, the date picked in the dashboard) is gathered in one record,
    [env]; everything it does to the outside (log lines, HTTP requests,
    model calls, widgets) is recorded in a trace carried by the state,
    next to the module-level dictionary [order_text_cache]. *)

From Stdlib Require Import ZArith NArith List String Ascii Bool Lia DecimalString DecimalNat.
From stdpp Require Import gmap list.

Local Open Scope nat_scope.

(** ** Python values *)

(** A Python [str] is a sequence of Unicode code points; [len] is its
    length and the empty string is the only falsy one. *)
Definition char := N.
Abbreviation str := (list N).

(** String literals of the source. *)
Definition py (s : string) : str := map N_of_ascii (list_ascii_of_string s).

(** [not s] for a string. *)
Definition str_is_empty (s : str) : bool :=
  match s with [] => true | _ :: _ => false end.

(** [str(n)] for a non-negative integer. *)
Definition str_of_nat (n : nat) : string := NilZero.string_of_uint (Nat.to_uint n).

(** [datetime.date]: ordered lexicographically by year, month, day. *)
Record date := mkDate { year : nat; month : nat; day : nat }.

Definition date_ge (a b : date) : bool :=
  if year b <? year a then true
  else if year a <? year b then false
  else if month b <? month a then true
  else if month a <? month b then false
  else day b <=? day a.

(** Exceptions carry their message. *)
Definition exn := str.

Inductive result (A : Type) : Type :=
| Ret (a : A)
| Raise (e : exn).
Arguments Ret {A} a.
Arguments Raise {A} e.

(** ** What BeautifulSoup hands back *)

(** A selector of [fetch_order_text]: a tag name and, optionally, a class. *)
Definition selector : Type := string * option string.

(** A parsed page, seen through the calls the script makes on it:
    [soup_find tag attrs] is [get_text(separator=" ", strip=True)] of the
    first element that [find(tag, attrs=attrs)] returns ([None] when
    there is none; a [Tag] is always truthy), [soup_get_text] the text of
    the whole document, and [soup_select_items] the list returned by
    [select("li[data-wp-key^='post-template-item-']")]. *)
Record a_tag := mkA { a_get_text : str; a_href : str }.
Record h2_tag := mkH2 { h2_find_a : option a_tag }.
Record time_tag := mkTime { time_datetime : option str }.
Record item := mkItem { item_find_h2 : option h2_tag; item_find_time : option time_tag }.

Record soup := mkSoup {
  soup_find : string -> option string -> option str;
  soup_get_text : str;
  soup_select_items : list item
}.

(** Outcome of [requests.get] followed by [BeautifulSoup(content)]: the
    request raises, or a response comes back with a status code and a
    body whose parsing yields a document or raises. *)
Inductive http_result :=
| GetRaises (e : exn)
| Response (status_code : Z) (content : result soup).

(** ** The environment *)

Record env := mkEnv {
  (** [requests.get(url, headers=HEADERS)], for the [n]-th request of the run *)
  requests_get : nat -> str -> http_result;
  (** [pipeline("summarization", ...)]: the model, a callable that returns
      [summary_output[0]['summary_text']] or raises *)
  pipeline : result (str -> result str);
  (** [datetime.fromisoformat(s).date()] *)
  fromisoformat : str -> result date;
  (** the lowercase mapping of [str.lower] for the code point outside
      ASCII at index [i] of the string [s] *)
  lower_non_ascii : str -> nat -> char -> str;
  (** the value returned by [st.date_input] *)
  date_input : date
}.

(** ** Rows, tables and the trace *)

(** The dictionary appended to [page_orders]. *)
Record order := mkOrder {
  Date : date;
  Title : str;
  Link : str;
  Summary : str;
  Impact : str;
  Full_Text : str
}.

Inductive cell :=
| CDate (d : date)
| CStr (s : str).

(** A [pandas.DataFrame]: column labels and rows, each row with its index
    label. *)
Record DataFrame := mkDF {
  columns : list string;
  rows : list (nat * list cell)
}.

(** The messages of [st.write], one constructor per format string. *)
Inductive message :=
| MsgInitializing                              (* "Initializing summarizer (CPU mode)..." *)
| MsgUsingCached (url : str)                   (* "Using cached order text for: {url}" *)
| MsgFetchingDetail (url : str)                (* "Fetching detail page: {url}" *)
| MsgFailedDetail (url : str)                  (* "Failed to fetch detail page: {url}" *)
| MsgFetchException (e : exn)                  (* "Exception in fetch_order_text: {e}" *)
| MsgFetchingPage (page_url : str)             (* "Fetching page: {page_url}" *)
| MsgFailedPage (page_url : str) (status : Z)  (* "Failed to fetch {page_url}, status: ..." *)
| MsgNoItems (page : nat)                      (* "No items found on page {page}. Ending fetch." *)
| MsgNoH2                                      (* "No <h2> found in item; skipping." *)
| MsgNoA                                       (* "No <a> tag found in <h2>; skipping." *)
| MsgDateError (title : str) (e : exn)         (* "Error parsing date for {title}: {e}" *)
| MsgNoTime (title : str)                      (* "No time element found in item for {title}; skipping." *)
| MsgProcessing (title : str) (d : date)       (* "Processing: {title} dated {order_date}" *)
| MsgSummarizationError (title : str) (e : exn)(* "Summarization error for {title}: {e}" *)
| MsgNoOrders (page : nat)                     (* "No orders found on page {page}. Ending fetch." *)
| MsgFetchingOrders                            (* "Fetching executive orders and generating summaries..." *)
| MsgNoneFound                                 (* "No executive orders found." *)
| MsgOverview.                                 (* "Executive Orders Overview:" *)

(** What the run does to the outside world. *)
Inductive event :=
| EvHtml                        (* components.html(...) *)
| EvTitle                       (* st.title(...) *)
| EvWrite (m : message)         (* st.write(...) *)
| EvGet (url : str)             (* requests.get(url, headers=HEADERS) *)
| EvPipeline                    (* pipeline("summarization", ...) *)
| EvSummarize (text : str)      (* summarizer(text, max_length=130, ...) *)
| EvDateInput                   (* st.date_input(...) *)
| EvDataframe (df : DataFrame). (* st.dataframe(...) *)

(** The module-level dictionary and the trace, newest event first. *)
Record state := mkState {
  order_text_cache : gmap str str;
  trace : list event
}.

(** State at the start of the script: [order_text_cache = {}]. *)
Definition initial_state : state := mkState ∅ [].

Definition is_get (e : event) : bool :=
  match e with EvGet _ => true | _ => false end.

Definition is_summarize (e : event) : bool :=
  match e with EvSummarize _ => true | _ => false end.

Definition is_dataframe (e : event) : bool :=
  match e with EvDataframe _ => true | _ => false end.

(** Events of one kind in a trace. *)
Definition events_of (p : event -> bool) (t : list event) : list event :=
  List.filter p t.

(** Number of HTTP requests issued so far. *)
Definition requests_made (s : state) : nat := List.length (events_of is_get (trace s)).

(** ** Computations: state passing with exceptions *)

Definition M (A : Type) : Type := state -> result A * state.

Definition ret {A} (a : A) : M A := fun s => (Ret a, s).

Definition raise {A} (e : exn) : M A := fun s => (Raise e, s).

Definition bind {A B} (c : M A) (k : A -> M B) : M B :=
  fun s => match c s with
           | (Ret a, s') => k a s'
           | (Raise e, s') => (Raise e, s')
           end.

(** [try: c  except Exception as e: h e] *)
Definition try_except {A} (c : M A) (h : exn -> M A) : M A :=
  fun s => match c s with
           | (Ret a, s') => (Ret a, s')
           | (Raise e, s') => h e s'
           end.

Notation "x <- c ;; k" := (bind c (fun x => k))
  (at level 100, c at next level, right associativity).
Notation "c ;; k" := (bind c (fun _ => k))
  (at level 100, right associativity).

Definition emit (e : event) : M unit :=
  fun s => (Ret tt, mkState (order_text_cache s) (e :: trace s)).

Definition st_write (m : message) : M unit := emit (EvWrite m).

(** [order_text_cache[url] = text] *)
Definition cache_store (url text : str) : M unit :=
  fun s => (Ret tt, mkState (<[url := text]> (order_text_cache s)) (trace s)).

(** [requests.get] and the parse of the body: the request is recorded,
    then the environment decides its outcome. *)
Definition http_get (E : env) (url : str) : M http_result :=
  fun s => (Ret (requests_get E (requests_made s) url),
            mkState (order_text_cache s) (EvGet url :: trace s)).

(** ** fetch_order_text *)

Definition selectors : list selector :=
  [ ("article"%string, None);
    ("div"%string, Some "page-content"%string);
    ("main"%string, None);
    ("div"%string, Some "content-wrapper"%string);
    ("div"%string, Some "page__content"%string);
    ("div"%string, Some "entry-content"%string) ].

(** The [for tag, attrs in selectors] loop, from the value [order_text]
    has on entry; the first branch of the inner test is the [break]. *)
Fixpoint selector_loop (sp : soup) (sels : list selector) (order_text : str) : str :=
  match sels with
  | [] => order_text
  | (tag, attrs) :: rest =>
      match soup_find sp tag attrs with
      | Some container_text =>
          if 200 <? List.length container_text then container_text
          else selector_loop sp rest container_text
      | None => selector_loop sp rest order_text
      end
  end.

(** Lines 55-63: selector loop, then the whole-page fallback. *)
Definition extract_order_text (sp : soup) : str :=
  let order_text := selector_loop sp selectors [] in
  if str_is_empty order_text || (List.length order_text <? 200)
  then soup_get_text sp
  else order_text.

(** The body of the [try] block.  No effect is visible between the parse
    of the response and the cache store, so one raising outcome of the
    parse stands for an exception anywhere in lines 45-63. *)
Definition fetch_order_text_try (E : env) (url : str) : M str :=
  st_write (MsgFetchingDetail url) ;;
  r <- http_get E url ;;
  match r with
  | GetRaises e => raise e
  | Response status_code content =>
      if negb (status_code =? 200)%Z then
        st_write (MsgFailedDetail url) ;; ret []
      else
        match content with
        | Raise e => raise e
        | Ret detail_soup =>
            let order_text := extract_order_text detail_soup in
            cache_store url order_text ;;
            ret order_text
        end
  end.

Definition fetch_order_text (E : env) (url : str) : M str :=
  fun s =>
    match order_text_cache s !! url with
    | Some cached =>
        (st_write (MsgUsingCached url) ;; ret cached) s
    | None =>
        try_except (fetch_order_text_try E url)
                   (fun e => st_write (MsgFetchException e) ;; ret []) s
    end.

(** ** Impact classification *)

(** [str.lower]: the ASCII capitals go to their small letters, the other
    ASCII code points stay, and a code point outside ASCII is replaced by
    what the Unicode tables of the environment say at that place. *)
Definition ascii_lower (c : char) : char :=
  if ((65 <=? c) && (c <=? 90))%N then (c + 32)%N else c.

Definition lower_char (E : env) (s : str) (i : nat) (c : char) : str :=
  if (c <? 128)%N then [ascii_lower c] else lower_non_ascii E s i c.

Fixpoint lower_from (E : env) (s : str) (i : nat) (t : str) : str :=
  match t with
  | [] => []
  | c :: t' => lower_char E s i c ++ lower_from E s (S i) t'
  end.

Definition str_lower (E : env) (s : str) : str := lower_from E s 0 s.

(** [t.startswith(p)] and the substring test [p in t]. *)
Fixpoint startswith (p t : str) : bool :=
  match p, t with
  | [], _ => true
  | _ :: _, [] => false
  | a :: p', b :: t' => (a =? b)%N && startswith p' t'
  end.

Fixpoint str_in (p t : str) : bool :=
  startswith p t || match t with [] => false | _ :: t' => str_in p t' end.

(** Line 131. *)
Definition classify_impact (E : env) (order_text : str) : str :=
  if str_in (py "emergency") (str_lower E order_text) then py "High" else py "Moderate".

(** ** fetch_executive_orders *)

Definition base_url : string := "https://www.whitehouse.gov".

Definition page_url (page : nat) : str :=
  if page =? 1
  then py (base_url ++ "/presidential-actions/")
  else py (base_url ++ "/presidential-actions/page/" ++ str_of_nat page ++ "/").

(** The call of the model, lines 123-124. *)
Definition call_summarizer (summarizer : str -> result str) (order_text : str) : M str :=
  fun s => (summarizer order_text,
            mkState (order_text_cache s) (EvSummarize order_text :: trace s)).

(** Lines 119-139: an item whose title, link and date were found. *)
Definition process_order (E : env) (summarizer : str -> result str)
    (title link : str) (order_date : date) (page_orders : list order) : M (list order) :=
  st_write (MsgProcessing title order_date) ;;
  order_text <- fetch_order_text E link ;;
  summary <-
    (if negb (str_is_empty order_text) then
       try_except (call_summarizer summarizer order_text)
                  (fun e => st_write (MsgSummarizationError title e) ;;
                            ret (py "Summary generation error."))
     else ret []) ;;
  let impact := classify_impact E order_text in
  ret (page_orders ++ [mkOrder order_date title link summary impact order_text]).

(** Lines 96-139: the body of [for item in items]; every branch that
    returns [page_orders] as it came is a [continue]. *)
Definition process_item (E : env) (summarizer : str -> result str)
    (it : item) (page_orders : list order) : M (list order) :=
  match item_find_h2 it with
  | None => st_write MsgNoH2 ;; ret page_orders
  | Some h2 =>
      match h2_find_a h2 with
      | None => st_write MsgNoA ;; ret page_orders
      | Some a =>
          let title := a_get_text a in
          let link := a_href a in
          match item_find_time it with
          | Some (mkTime (Some datetime)) =>
              match fromisoformat E datetime with
              | Raise e => st_write (MsgDateError title e) ;; ret page_orders
              | Ret order_date => process_order E summarizer title link order_date page_orders
              end
          | _ => st_write (MsgNoTime title) ;; ret page_orders
          end
      end
  end.

Fixpoint items_loop (E : env) (summarizer : str -> result str)
    (items : list item) (page_orders : list order) : M (list order) :=
  match items with
  | [] => ret page_orders
  | it :: rest =>
      page_orders' <- process_item E summarizer it page_orders ;;
      items_loop E summarizer rest page_orders'
  end.

(** One turn of [while True], lines 81-143: [None] is a [break],
    [Some page_orders] reaches [orders.extend(page_orders)]. *)
Definition page_body (E : env) (summarizer : str -> result str) (page : nat)
    : M (option (list order)) :=
  st_write (MsgFetchingPage (page_url page)) ;;
  r <- http_get E (page_url page) ;;
  match r with
  | GetRaises e => raise e
  | Response status_code content =>
      if negb (status_code =? 200)%Z then
        st_write (MsgFailedPage (page_url page) status_code) ;; ret None
      else
        match content with
        | Raise e => raise e
        | Ret sp =>
            match soup_select_items sp with
            | [] => st_write (MsgNoItems page) ;; ret None
            | items =>
                page_orders <- items_loop E summarizer items [] ;;
                match page_orders with
                | [] => st_write (MsgNoOrders page) ;; ret None
                | _ => ret (Some page_orders)
                end
            end
        end
  end.

(** The [while True] loop.  It ends only at a [break] or an exception, so
    the model takes a bound on the number of pages: [None] means the bound
    was reached with the loop still running. *)
Fixpoint pages_loop (E : env) (summarizer : str -> result str)
    (fuel page : nat) (orders : list order) (s : state)
    : option (result (list order) * state) :=
  match fuel with
  | 0 => None
  | S fuel' =>
      match page_body E summarizer page s with
      | (Raise e, s') => Some (Raise e, s')
      | (Ret None, s') => Some (Ret orders, s')
      | (Ret (Some page_orders), s') =>
          pages_loop E summarizer fuel' (S page) (orders ++ page_orders) s'
      end
  end.

Definition fetch_executive_orders (E : env) (summarizer : str -> result str)
    (fuel : nat) (s : state) : option (result (list order) * state) :=
  pages_loop E summarizer fuel 1 [] s.

(** ** The dashboard table *)

(** Keys of the dictionary of an order, in the order of the literal. *)
Definition order_keys : list string :=
  ["Date"; "Title"; "Link"; "Summary"; "Impact"; "Full Text"]%string.

Definition order_cells (o : order) : list cell :=
  [CDate (Date o); CStr (Title o); CStr (Link o); CStr (Summary o);
   CStr (Impact o); CStr (Full_Text o)].

Fixpoint index_rows (i : nat) (orders : list order) : list (nat * list cell) :=
  match orders with
  | [] => []
  | o :: rest => (i, order_cells o) :: index_rows (S i) rest
  end.

(** [pd.DataFrame(orders)]: one row per dictionary, labelled 0, 1, ...; the
    columns are the keys of the dictionaries, none when the list is empty. *)
Definition DataFrame_of_orders (orders : list order) : DataFrame :=
  match orders with
  | [] => mkDF [] []
  | _ => mkDF order_keys (index_rows 0 orders)
  end.

(** [df.empty]: an axis of length 0. *)
Definition df_empty (df : DataFrame) : bool :=
  match columns df, rows df with
  | _ :: _, _ :: _ => false
  | _, _ => true
  end.

Definition key_error (k : string) : exn := py ("KeyError: " ++ k).
Definition type_error : exn := py "TypeError".

(** Position of a column label. *)
Fixpoint column_index (name : string) (cols : list string) : option nat :=
  match cols with
  | [] => None
  | c :: rest =>
      if String.eqb c name then Some 0
      else option_map S (column_index name rest)
  end.

Fixpoint series_of (i : nat) (rs : list (nat * list cell)) : result (list (nat * cell)) :=
  match rs with
  | [] => Ret []
  | (label, cells) :: rest =>
      match cells !! i, series_of i rest with
      | Some c, Ret tl => Ret ((label, c) :: tl)
      | None, _ => Raise (py "IndexError")
      | _, Raise e => Raise e
      end
  end.

(** [df[name]]: the column as a labelled series, [KeyError] for a label
    the frame does not have. *)
Definition df_column (df : DataFrame) (name : string) : result (list (nat * cell)) :=
  match column_index name (columns df) with
  | None => Raise (key_error name)
  | Some i => series_of i (rows df)
  end.

(** [series >= d] for a date [d], element by element; comparing a string
    with a date raises. *)
Fixpoint series_ge (sr : list (nat * cell)) (d : date) : result (list (nat * bool)) :=
  match sr with
  | [] => Ret []
  | (label, c) :: rest =>
      match c, series_ge rest d with
      | CDate x, Ret tl => Ret ((label, date_ge x d) :: tl)
      | CStr _, _ => Raise type_error
      | _, Raise e => Raise e
      end
  end.

(** [df[mask]]: the rows whose label the mask marks [True]. *)
Definition mask_at (mask : list (nat * bool)) (label : nat) : bool :=
  match List.find (fun lb => fst lb =? label) mask with
  | Some (_, b) => b
  | None => false
  end.

Definition df_where (df : DataFrame) (mask : list (nat * bool)) : DataFrame :=
  mkDF (columns df) (List.filter (fun r => mask_at mask (fst r)) (rows df)).

Fixpoint column_indices (names cols : list string) : result (list nat) :=
  match names with
  | [] => Ret []
  | n :: rest =>
      match column_index n cols, column_indices rest cols with
      | Some i, Ret tl => Ret (i :: tl)
      | None, _ => Raise (key_error n)
      | _, Raise e => Raise e
      end
  end.

Definition pick_cells (idx : list nat) (cells : list cell) : list cell :=
  omap (fun i => cells !! i) idx.

(** [df[[name, ...]]]: the listed columns, in the listed order. *)
Definition df_select (df : DataFrame) (names : list string) : result DataFrame :=
  match column_indices names (columns df) with
  | Raise e => Raise e
  | Ret idx => Ret (mkDF names (List.map (fun r => (fst r, pick_cells idx (snd r))) (rows df)))
  end.

Definition displayed_columns : list string :=
  ["Date"; "Title"; "Link"; "Summary"; "Impact"]%string.

Definition lift {A} (r : result A) : M A :=
  match r with Ret a => ret a | Raise e => raise e end.

(** Lines 160-168 of [main]. *)
Definition render (E : env) (orders : list order) : M unit :=
  let df := DataFrame_of_orders orders in
  if df_empty df then st_write MsgNoneFound
  else
    emit EvDateInput ;;
    let date_filter := date_input E in
    dates <- lift (df_column df "Date") ;;
    mask <- lift (series_ge dates date_filter) ;;
    let df_filtered := df_where df mask in
    st_write MsgOverview ;;
    shown <- lift (df_select df_filtered displayed_columns) ;;
    emit (EvDataframe shown).

(** ** main *)

Definition get_summarizer (E : env) : M (str -> result str) :=
  st_write MsgInitializing ;;
  emit EvPipeline ;;
  lift (pipeline E).

Definition main (E : env) (fuel : nat) (s : state) : option (result unit * state) :=
  match (emit EvHtml ;; emit EvTitle ;; st_write MsgFetchingOrders ;;
         get_summarizer E) s with
  | (Raise e, s1) => Some (Raise e, s1)
  | (Ret summarizer, s1) =>
      match fetch_executive_orders E summarizer fuel s1 with
      | None => None
      | Some (Raise e, s2) => Some (Raise e, s2)
      | Some (Ret orders, s2) => Some (render E orders s2)
      end
  end.

(** ** What the specification calls things *)

(** "Contains the substring case-insensitively": some window of the text
    agrees with the pattern letter by letter once both are brought to
    lower case. *)
Definition same_letter (a b : char) : bool :=
  (ascii_lower a =? ascii_lower b)%N.

Fixpoint startswith_ci (p t : str) : bool :=
  match p, t with
  | [], _ => true
  | _ :: _, [] => false
  | a :: p', b :: t' => same_letter a b && startswith_ci p' t'
  end.

Fixpoint contains_ci (p t : str) : bool :=
  startswith_ci p t || match t with [] => false | _ :: t' => contains_ci p t' end.

(** What Unicode guarantees about [str.lower] outside ASCII, as far as the
    keyword is concerned: the lowercase form of such a code point is never
    empty and holds no letter of the keyword. *)
Definition lower_respects (E : env) (keyword : str) : Prop :=
  forall (s : str) (i : nat) (c : char),
    (128 <= c)%N ->
    lower_non_ascii E s i c <> [] /\
    forall x, In x (lower_non_ascii E s i c) -> ~ In x keyword.

(** "Selector fallback rule": the text of the first container longer than
    200 characters if there is one; otherwise the text of the last
    container found, replaced by the text of the whole page when it is
    empty or shorter than 200 characters. *)
Definition container_text (sp : soup) (sel : selector) : option str :=
  soup_find sp (fst sel) (snd sel).

Definition exceeds_200 (o : option str) : bool :=
  match o with Some t => 200 <? List.length t | None => false end.

Definition first_long_container (sp : soup) (sels : list selector) : option str :=
  match List.find (fun sel => exceeds_200 (container_text sp sel)) sels with
  | Some sel => container_text sp sel
  | None => None
  end.

Definition found (o : option str) : bool :=
  match o with Some _ => true | None => false end.

Definition last_container (sp : soup) (sels : list selector) : str :=
  match List.find (fun sel => found (container_text sp sel)) (rev sels) with
  | Some sel => default [] (container_text sp sel)
  | None => []
  end.

Definition fallback_rule (sp : soup) (sels : list selector) : str :=
  match first_long_container sp sels with
  | Some t => t
  | None =>
      let t := last_container sp sels in
      if str_is_empty t || (List.length t <? 200) then soup_get_text sp else t
  end.

(** "Missing its <h2>, its <a> link, or a parseable <time datetime>". *)
Definition item_lacks (E : env) (it : item) : bool :=
  match item_find_h2 it with
  | None => true
  | Some h2 =>
      match h2_find_a h2 with
      | None => true
      | Some _ =>
          match item_find_time it with
          | None => true
          | Some time_el =>
              match time_datetime time_el with
              | None => true
              | Some datetime =>
                  match fromisoformat E datetime with
                  | Raise _ => true
                  | Ret _ => false
                  end
              end
          end
      end
  end.

(** "A fetch that returns a non-200 status or raises": the outcome of the
    request and of the work on its body. *)
Definition fetch_fails (r : http_result) : bool :=
  match r with
  | GetRaises _ => true
  | Response status_code content =>
      negb (status_code =? 200)%Z || match content with Raise _ => true | Ret _ => false end
  end.

(** The trace once the request of a cache miss has been sent. *)
Definition requested (url : str) (s : state) : list event :=
  EvGet url :: EvWrite (MsgFetchingDetail url) :: trace s.

(** The [Summary] the loop records for a fetched text: nothing for an
    empty text, the output of the model when it gives one, the fixed
    error string when the call raises. *)
Definition summary_of (summarizer : str -> result str) (order_text : str) : str :=
  if str_is_empty order_text then []
  else match summarizer order_text with
       | Ret summary => summary
       | Raise _ => py "Summary generation error."
       end.

(** An order as [process_order] builds it from the text it fetched. *)
Definition order_ok (E : env) (summarizer : str -> result str) (o : order) : Prop :=
  Summary o = summary_of summarizer (Full_Text o) /\
  Impact o = classify_impact E (Full_Text o).

(** The five cells the dashboard shows for an order. *)
Definition displayed_cells (o : order) : list cell :=
  [CDate (Date o); CStr (Title o); CStr (Link o); CStr (Summary o); CStr (Impact o)].

Definition has_text (o : order) : bool := negb (str_is_empty (Full_Text o)).

(** The model calls a list of recorded orders stands for, newest first. *)
Definition summarize_calls (orders : list order) : list event :=
  rev (List.map (fun o => EvSummarize (Full_Text o)) (List.filter has_text orders)).

(** What a stretch of the scrape that recorded the orders [new] did to
    the state: the cache grew, the orders are built from their texts, the
    model was called once for each order with a text, and no table was
    rendered. *)
Definition scraped (E : env) (summarizer : str -> result str)
    (s s' : state) (new : list order) : Prop :=
  order_text_cache s ⊆ order_text_cache s' /\
  Forall (order_ok E summarizer) new /\
  events_of is_summarize (trace s') =
    summarize_calls new ++ events_of is_summarize (trace s) /\
  events_of is_dataframe (trace s') = events_of is_dataframe (trace s).

(** The listing request of a page, or the parse of its body, raised [e]. *)
Definition listing_raises (E : env) (n page : nat) (e : exn) : Prop :=
  requests_get E n (page_url page) = GetRaises e \/
  requests_get E n (page_url page) = Response 200 (Raise e).

(** "A pure row filter": the rows of the orders dated on or after the
    chosen day, each under the label of its position in the list and with
    its five displayed cells, in the order of the list. *)
Fixpoint shown_rows (d : date) (i : nat) (orders : list order) : list (nat * list cell) :=
  match orders with
  | [] => []
  | o :: rest =>
      if date_ge (Date o) d then (i, displayed_cells o) :: shown_rows d (S i) rest
      else shown_rows d (S i) rest
  end.

(** The state in which [main] starts the scrape: page set up, model loaded. *)
Definition ready (s : state) : state :=
  mkState (order_text_cache s)
          (EvPipeline :: EvWrite MsgInitializing :: EvWrite MsgFetchingOrders
           :: EvTitle :: EvHtml :: trace s).

(** What the end of [main] does for a list of orders, newest first. *)
Definition render_events (E : env) (orders : list order) : list event :=
  match orders with
  | [] => [EvWrite MsgNoneFound]
  | _ => [EvDataframe (mkDF displayed_columns (shown_rows (date_input E) 0 orders));
          EvWrite MsgOverview;
          EvDateInput]
  end.

(** The [Date] column of the frame of a list of orders, and its
    comparison with a day. *)
Fixpoint date_series (i : nat) (orders : list order) : list (nat * cell) :=
  match orders with
  | [] => []
  | o :: rest => (i, CDate (Date o)) :: date_series (S i) rest
  end.

Fixpoint date_mask (d : date) (i : nat) (orders : list order) : list (nat * bool) :=
  match orders with
  | [] => []
  | o :: rest => (i, date_ge (Date o) d) :: date_mask d (S i) rest
  end.

(** C5 read to the letter: the Summary of every recorded order is the
    output of the model on the text of the order. *)
Definition summary_is_model_output : Prop :=
  forall (E : env) (summarizer : str -> result str) (fuel : nat)
         (s : state) (orders : list order) (s' : state),
    fetch_executive_orders E summarizer fuel s = Some (Ret orders, s') ->
    forall o, In o orders -> summarizer (Full_Text o) = Ret (Summary o).

(** C6 read to the letter: a complete run calls the model once. *)
Definition single_summarization_call : Prop :=
  forall (E : env) (fuel : nat) (s' : state),
    main E fuel initial_state = Some (Ret tt, s') ->
    List.length (events_of is_summarize (trace s')) = 1.

(** ** A small site to run the script on *)

Definition ex_link1 : str := py "https://www.whitehouse.gov/presidential-actions/2025/02/order-one/".
Definition ex_link2 : str := py "https://www.whitehouse.gov/presidential-actions/2024/12/order-two/".
Definition ex_link3 : str := py "https://www.whitehouse.gov/presidential-actions/2025/01/order-three/".

Definition ex_long_text : str :=
  py "Declaring a National EMERGENCY at the border. " ++ repeat 120%N 200.

Definition ex_detail1 : soup :=
  mkSoup (fun tag attrs => if String.eqb tag "article" then Some ex_long_text else None)
         (py "menu " ++ ex_long_text) [].

Definition ex_detail3 : soup :=
  mkSoup (fun tag attrs => if String.eqb tag "main" then Some (py "Short notice.") else None)
         (py "menu Short notice. footer") [].

Definition ex_items : list item :=
  [ mkItem (Some (mkH2 (Some (mkA (py "Order One") ex_link1))))
           (Some (mkTime (Some (py "2025-02-03T10:00:00-05:00"))));
    mkItem None (Some (mkTime (Some (py "2025-02-01T10:00:00-05:00"))));
    mkItem (Some (mkH2 (Some (mkA (py "Order Two") ex_link2))))
           (Some (mkTime (Some (py "2024-12-25T09:30:00-05:00"))));
    mkItem (Some (mkH2 (Some (mkA (py "Undated") ex_link1))))
           (Some (mkTime (Some (py "last week"))));
    mkItem (Some (mkH2 (Some (mkA (py "Order Three") ex_link3))))
           (Some (mkTime (Some (py "2025-01-20T18:00:00-05:00")))) ].

Definition ex_listing : soup := mkSoup (fun _ _ => None) (py "Presidential Actions") ex_items.

Definition ex_not_found : soup := mkSoup (fun _ _ => None) (py "Not Found") [].

Definition ex_requests_get (n : nat) (url : str) : http_result :=
  if bool_decide (url = page_url 1) then Response 200 (Ret ex_listing)
  else if bool_decide (url = ex_link1) then Response 200 (Ret ex_detail1)
  else if bool_decide (url = ex_link2) then Response 500 (Ret ex_not_found)
  else if bool_decide (url = ex_link3) then Response 200 (Ret ex_detail3)
  else Response 404 (Ret ex_not_found).

(** A model that rejects inputs shorter than 50 characters. *)
Definition ex_summarizer (text : str) : result str :=
  if List.length text <? 50 then Raise (py "input too short")
  else Ret (py "A national emergency is declared.").

(** A model that answers every text, the empty one too, with one sentence. *)
Definition ex_constant_summarizer (text : str) : result str :=
  Ret (py "An order was signed.").

Definition ex_fromisoformat (s : str) : result date :=
  if bool_decide (s = py "2025-02-03T10:00:00-05:00") then Ret (mkDate 2025 2 3)
  else if bool_decide (s = py "2024-12-25T09:30:00-05:00") then Ret (mkDate 2024 12 25)
  else if bool_decide (s = py "2025-01-20T18:00:00-05:00") then Ret (mkDate 2025 1 20)
  else Raise (py "Invalid isoformat string").

Definition ex_env : env :=
  mkEnv ex_requests_get (Ret ex_summarizer) ex_fromisoformat
        (fun _ _ c => [c]) (mkDate 2025 1 20).

(** The same site with the model that answers every text. *)
Definition ex_constant_env : env :=
  mkEnv ex_requests_get (Ret ex_constant_summarizer) ex_fromisoformat
        (fun _ _ c => [c]) (mkDate 2025 1 20).

Definition ex_order1 : order :=
  mkOrder (mkDate 2025 2 3) (py "Order One") ex_link1
          (py "A national emergency is declared.") (py "High") ex_long_text.

Definition ex_order2 : order :=
  mkOrder (mkDate 2024 12 25) (py "Order Two") ex_link2 [] (py "Moderate") [].

Definition ex_order3 : order :=
  mkOrder (mkDate 2025 1 20) (py "Order Three") ex_link3
          (py "Summary generation error.") (py "Moderate") (py "menu Short notice. footer").

(** The orders the scrape of the example site records when the model
    answers every text. *)
Definition ex_constant_orders : list order :=
  [ mkOrder (mkDate 2025 2 3) (py "Order One") ex_link1
            (py "An order was signed.") (py "High") ex_long_text;
    ex_order2;
    mkOrder (mkDate 2025 1 20) (py "Order Three") ex_link3
            (py "An order was signed.") (py "Moderate") (py "menu Short notice. footer") ].

(** The states the runs on the example site end in. *)
Definition ex_scraped : state :=
  Eval vm_compute in
    snd (default (Ret [], initial_state)
           (fetch_executive_orders ex_env ex_summarizer 5 initial_state)).

Definition ex_constant_scraped : state :=
  Eval vm_compute in
    snd (default (Ret [], initial_state)
           (fetch_executive_orders ex_env ex_constant_summarizer 5 initial_state)).

Definition ex_final : state :=
  Eval vm_compute in
    snd (default (Ret tt, initial_state) (main ex_env 5 initial_state)).

Definition ex_constant_final : state :=
  Eval vm_compute in
    snd (default (Ret tt, initial_state) (main ex_constant_env 5 initial_state)).

(** ** More words for what the loop does *)

(** What an item contributes when nothing is missing: the date parsed from
    its <time>, the text of its link and the address the link points to. *)
Definition item_fields (E : env) (it : item) : option (date * str * str) :=
  match item_find_h2 it with
  | Some (mkH2 (Some a)) =>
      match item_find_time it with
      | Some (mkTime (Some datetime)) =>
          match fromisoformat E datetime with
          | Ret d => Some (d, a_get_text a, a_href a)
          | Raise _ => None
          end
      | _ => None
      end
  | _ => None
  end.

Definition order_fields (o : order) : date * str * str := (Date o, Title o, Link o).

(** A text that is what [extract_order_text] makes of a page the site
    served for the address with status 200. *)
Definition served (E : env) (url text : str) : Prop :=
  exists (n : nat) (sp : soup),
    requests_get E n url = Response 200 (Ret sp) /\ text = extract_order_text sp.

(** Every entry of the cache was served for its key. *)
Definition cache_sound (E : env) (s : state) : Prop :=
  forall url text : str, order_text_cache s !! url = Some text -> served E url text.

(** An order whose text, when it has one, is in the cache under its link. *)
Definition text_cached (s : state) (o : order) : Prop :=
  Full_Text o <> [] -> order_text_cache s !! Link o = Some (Full_Text o).

(** An order whose text is the one the cache already had for its link. *)
Definition follows_cache (s : state) (o : order) : Prop :=
  forall text : str, order_text_cache s !! Link o = Some text -> Full_Text o = text.

(** Of two orders with the same link, the later repeats the text of the
    earlier when that text is not empty. *)
Definition repeats_text (o1 o2 : order) : Prop :=
  Link o1 = Link o2 -> Full_Text o1 <> [] -> Full_Text o2 = Full_Text o1.

(** The events of the scrape: log lines, requests and calls of the model. *)
Definition scrape_event (e : event) : bool :=
  match e with
  | EvWrite _ | EvGet _ | EvSummarize _ => true
  | _ => false
  end.

(** The trace [t'] continues [t] with events of the scrape only. *)
Definition continues (t t' : list event) : Prop :=
  exists evs : list event, t' = evs ++ t /\ forallb scrape_event evs = true.

(** What a stretch of the scrape that asked for [pages] listing pages and
    recorded the orders [new] did: see the lemmas on [walked] below. *)
Definition walked (E : env) (pages : nat) (s s' : state) (new : list order) : Prop :=
  order_text_cache s ⊆ order_text_cache s' /\
  requests_made s + pages <= requests_made s' /\
  requests_made s' <= requests_made s + pages + List.length new /\
  continues (trace s) (trace s') /\
  Forall (text_cached s') new /\
  Forall (follows_cache s) new /\
  ForallOrdPairs repeats_text new /\
  (cache_sound E s ->
   cache_sound E s' /\
   Forall (fun o => Full_Text o = [] \/ served E (Link o) (Full_Text o)) new).

(** The trace once the listing request of a page has been sent. *)
Definition listed (page : nat) (s : state) : state :=
  mkState (order_text_cache s)
          (EvGet (page_url page) :: EvWrite (MsgFetchingPage (page_url page)) :: trace s).

(** A site that answers every request with the listing of the example. *)
Definition ex_endless_env : env :=
  mkEnv (fun _ _ => Response 200 (Ret ex_listing)) (Ret ex_summarizer)
        ex_fromisoformat (fun _ _ c => [c]) (mkDate 2025 1 20).

(** A site whose first listing page has no item. *)
Definition ex_empty_env : env :=
  mkEnv (fun _ _ => Response 200 (Ret ex_not_found)) (Ret ex_summarizer)
        ex_fromisoformat (fun _ _ c => [c]) (mkDate 2025 1 20).

(** A site whose model cannot be loaded. *)
Definition ex_no_model_env : env :=
  mkEnv ex_requests_get (Raise (py "model not found")) ex_fromisoformat
        (fun _ _ c => [c]) (mkDate 2025 1 20).

(** The dashboard of the example site, opened with a later day chosen. *)
Definition ex_later_env : env :=
  mkEnv ex_requests_get (Ret ex_summarizer) ex_fromisoformat
        (fun _ _ c => [c]) (mkDate 2025 2 1).

(** A site that lists the example's items on its first two pages and,
    from the fourth request on, serves another text for the first order. *)
Definition ex_twice_requests_get (n : nat) (url : str) : http_result :=
  if bool_decide (url = page_url 2) then Response 200 (Ret ex_listing)
  else if bool_decide (url = ex_link1) && (3 <? n) then Response 200 (Ret ex_detail3)
  else ex_requests_get n url.

Definition ex_twice_env : env :=
  mkEnv ex_twice_requests_get (Ret ex_summarizer) ex_fromisoformat
        (fun _ _ c => [c]) (mkDate 2025 1 20).

Definition ex_twice_scraped : state :=
  Eval vm_compute in
    snd (default (Ret [], initial_state)
           (fetch_executive_orders ex_twice_env ex_summarizer 5 initial_state)).

(** A first listing page that ends the scrape at once: a status other
    than 200, or a page without items. *)
Definition nothing_listed (r : http_result) : bool :=
  match r with
  | GetRaises _ => false
  | Response status_code content =>
      if negb (status_code =? 200)%Z then true
      else match content with
           | Ret sp => match soup_select_items sp with [] => true | _ => false end
           | Raise _ => false
           end
  end.

(** A site whose first listing page holds only items that lack something. *)
Definition ex_bad_listing : soup :=
  mkSoup (fun _ _ => None) (py "Presidential Actions")
         [ mkItem None (Some (mkTime (Some (py "2025-02-01T10:00:00-05:00"))));
           mkItem (Some (mkH2 (Some (mkA (py "Undated") ex_link1))))
                  (Some (mkTime (Some (py "last week")))) ].

Definition ex_bad_env : env :=
  mkEnv (fun _ _ => Response 200 (Ret ex_bad_listing)) (Ret ex_summarizer)
        ex_fromisoformat (fun _ _ c => [c]) (mkDate 2025 1 20).

(** * Properties *)

(** ** fetch_order_text, case by case *)

Section FetchOrderText.
Variable E : env.

Lemma requests_made_write (c : gmap str str) (m : message) (t : list event) :
  requests_made (mkState c (EvWrite m :: t)) = requests_made (mkState c t).
Proof. reflexivity. Qed.

Lemma fetch_order_text_hit (url cached : str) (s : state) :
  order_text_cache s !! url = Some cached ->
  fetch_order_text E url s =
    (Ret cached,
     mkState (order_text_cache s) (EvWrite (MsgUsingCached url) :: trace s)).
Proof. intros H. unfold fetch_order_text. rewrite H. reflexivity. Qed.

Lemma fetch_order_text_miss (url : str) (s : state) :
  order_text_cache s !! url = None ->
  fetch_order_text E url s =
    match requests_get E (requests_made s) url with
    | GetRaises e =>
        (Ret [], mkState (order_text_cache s)
                         (EvWrite (MsgFetchException e) :: requested url s))
    | Response status_code content =>
        if negb (status_code =? 200)%Z then
          (Ret [], mkState (order_text_cache s)
                           (EvWrite (MsgFailedDetail url) :: requested url s))
        else
          match content with
          | Raise e =>
              (Ret [], mkState (order_text_cache s)
                               (EvWrite (MsgFetchException e) :: requested url s))
          | Ret sp =>
              (Ret (extract_order_text sp),
               mkState (<[url := extract_order_text sp]> (order_text_cache s))
                       (requested url s))
          end
    end.
Proof.
  intros H. unfold fetch_order_text. rewrite H.
  unfold try_except, fetch_order_text_try, bind, st_write, emit, http_get.
  cbn [fst snd order_text_cache trace]. rewrite requests_made_write.
  destruct s as [c t]; cbn [order_text_cache trace].
  destruct (requests_get E (requests_made (mkState c t)) url) as [e|st [sp|e]];
    [reflexivity| |]; destruct (negb (st =? 200)%Z); reflexivity.
Qed.

Lemma fetch_order_text_failure (url : str) (s : state) :
  order_text_cache s !! url = None ->
  fetch_fails (requests_get E (requests_made s) url) = true ->
  exists m,
    fetch_order_text E url s =
      (Ret [], mkState (order_text_cache s) (EvWrite m :: requested url s)).
Proof.
  intros Hmiss Hfail. rewrite (fetch_order_text_miss url s Hmiss).
  destruct (requests_get E (requests_made s) url) as [e|st [sp|e]]; cbn in Hfail.
  - eauto.
  - rewrite orb_false_r in Hfail. rewrite Hfail. eauto.
  - destruct (negb (st =? 200)%Z); eauto.
Qed.

Lemma fetch_order_text_returns (url : str) (s : state) :
  exists text s', fetch_order_text E url s = (Ret text, s').
Proof.
  destruct (order_text_cache s !! url) as [cached|] eqn:Hc.
  - rewrite (fetch_order_text_hit url cached s Hc). eauto.
  - rewrite (fetch_order_text_miss url s Hc).
    destruct (requests_get E (requests_made s) url) as [e|st [sp|e]]; eauto;
      destruct (negb (st =? 200)%Z); eauto.
Qed.

Lemma fetch_order_text_cache_grows (url : str) (s : state) :
  order_text_cache s ⊆ order_text_cache (snd (fetch_order_text E url s)).
Proof.
  destruct (order_text_cache s !! url) as [cached|] eqn:Hc.
  - rewrite (fetch_order_text_hit url cached s Hc). reflexivity.
  - rewrite (fetch_order_text_miss url s Hc).
    destruct (requests_get E (requests_made s) url) as [e|st [sp|e]];
      [reflexivity| |]; destruct (negb (st =? 200)%Z); try reflexivity.
    cbn. by apply insert_subseteq.
Qed.

End FetchOrderText.

(** ** The selector loop *)

Section Selectors.
Variable sp : soup.

Lemma find_snoc {A} (p : A -> bool) (l : list A) (x : A) :
  List.find p (l ++ [x]) =
    match List.find p l with
    | Some y => Some y
    | None => if p x then Some x else None
    end.
Proof.
  induction l as [|a l IH]; cbn.
  - reflexivity.
  - destruct (p a); [reflexivity | exact IH].
Qed.

Lemma first_long_container_cons (sel : selector) (rest : list selector) :
  first_long_container sp (sel :: rest) =
    if exceeds_200 (container_text sp sel) then container_text sp sel
    else first_long_container sp rest.
Proof.
  unfold first_long_container. cbn [List.find].
  destruct (exceeds_200 (container_text sp sel)); reflexivity.
Qed.

(** The loop, entered with [order_text = init], in the words of the
    rule: the first long container, else the last container found, else
    what [order_text] was. *)
Lemma selector_loop_rule (sels : list selector) (init : str) :
  selector_loop sp sels init =
    match first_long_container sp sels with
    | Some t => t
    | None =>
        match List.find (fun sel => found (container_text sp sel)) (rev sels) with
        | Some sel => default [] (container_text sp sel)
        | None => init
        end
    end.
Proof.
  revert init. induction sels as [|[tag attrs] rest IH]; intros init.
  - reflexivity.
  - cbn [selector_loop rev]. rewrite find_snoc, first_long_container_cons.
    unfold container_text at 1 2 4 5. cbn [fst snd].
    destruct (soup_find sp tag attrs) as [t|] eqn:Hf; cbn [exceeds_200 found].
    + destruct (200 <? List.length t) eqn:Hlong; [reflexivity|].
      rewrite IH.
      destruct (first_long_container sp rest); [reflexivity|].
      destruct (List.find _ (rev rest)); [reflexivity|].
      unfold container_text. cbn [fst snd]. rewrite Hf. reflexivity.
    + rewrite IH.
      destruct (first_long_container sp rest); [reflexivity|].
      destruct (List.find _ (rev rest)); reflexivity.
Qed.

Lemma first_long_container_long (sels : list selector) (t : str) :
  first_long_container sp sels = Some t -> 200 < List.length t.
Proof.
  unfold first_long_container.
  destruct (List.find _ sels) as [sel|] eqn:Hfind; [|discriminate].
  apply find_some in Hfind as [_ Hlong]. intros Ht. rewrite Ht in Hlong.
  unfold exceeds_200 in Hlong. by apply Nat.ltb_lt in Hlong.
Qed.

Lemma extract_order_text_rule :
  extract_order_text sp = fallback_rule sp selectors.
Proof.
  unfold extract_order_text, fallback_rule, last_container.
  rewrite selector_loop_rule.
  destruct (first_long_container sp selectors) as [t|] eqn:Hfirst.
  - apply first_long_container_long in Hfirst.
    destruct t as [|c t]; [cbn in Hfirst; lia|]. cbn [str_is_empty orb].
    destruct (List.length (c :: t) <? 200) eqn:Hshort; [|reflexivity].
    apply Nat.ltb_lt in Hshort. lia.
  - reflexivity.
Qed.

Lemma extract_order_text_length :
  extract_order_text sp = soup_get_text sp \/
  200 <= List.length (extract_order_text sp).
Proof.
  unfold extract_order_text.
  destruct (str_is_empty _ || (_ <? 200)) eqn:Hc; [left; reflexivity|right].
  apply orb_false_elim in Hc as [_ Hc]. apply Nat.ltb_ge in Hc. exact Hc.
Qed.

End Selectors.

(** C9. Content extraction tries the selectors article, div.page-content,
    main, div.content-wrapper, div.page__content, div.entry-content in
    that order and follows the fallback rule: the text of the first
    container longer than 200 characters, otherwise the text of the last
    container found unless it is empty or shorter than 200 characters, in
    which case the text of the whole page.  Hence a returned text that is
    not the whole page's has length at least 200. *)
Theorem C9_selector_fallback (sp : soup) :
  selectors =
    [ ("article"%string, None);
      ("div"%string, Some "page-content"%string);
      ("main"%string, None);
      ("div"%string, Some "content-wrapper"%string);
      ("div"%string, Some "page__content"%string);
      ("div"%string, Some "entry-content"%string) ] /\
  extract_order_text sp = fallback_rule sp selectors /\
  (extract_order_text sp = soup_get_text sp \/
   200 <= List.length (extract_order_text sp)).
Proof.
  split; [reflexivity|]. split.
  - apply extract_order_text_rule.
  - apply extract_order_text_length.
Qed.

(** C8. [fetch_order_text] returns a string, possibly empty, for every
    URL, state of the cache and outcome of the request and of the parse,
    and raises no exception to its caller. *)
Theorem C8_fetch_order_text_total (E : env) (url : str) (s : state) :
  exists (text : str) (s' : state), fetch_order_text E url s = (Ret text, s').
Proof. apply fetch_order_text_returns. Qed.

(** ** The scrape loop *)

Section Scrape.
Variable E : env.
Variable summarizer : str -> result str.

(** [fetch_order_text] only logs and sends requests. *)
Lemma fetch_order_text_events (p : event -> bool) (url : str) (s : state) :
  (forall m, p (EvWrite m) = false) -> (forall u, p (EvGet u) = false) ->
  events_of p (trace (snd (fetch_order_text E url s))) = events_of p (trace s).
Proof.
  intros Hw Hg. unfold events_of.
  destruct (order_text_cache s !! url) as [cached|] eqn:Hc.
  - rewrite (fetch_order_text_hit E url cached s Hc). cbn. by rewrite Hw.
  - rewrite (fetch_order_text_miss E url s Hc). unfold requested.
    destruct (requests_get E (requests_made s) url) as [e|st [sp|e]];
      [| |]; try destruct (negb (st =? 200)%Z);
      cbn [snd trace List.filter]; by rewrite ?Hw, ?Hg.
Qed.

Lemma scraped_refl (s : state) : scraped E summarizer s s [].
Proof. repeat split; [reflexivity | constructor]. Qed.

Lemma summarize_calls_app (a b : list order) :
  summarize_calls (a ++ b) = summarize_calls b ++ summarize_calls a.
Proof.
  unfold summarize_calls. rewrite List.filter_app, List.map_app, rev_app_distr.
  reflexivity.
Qed.

Lemma scraped_trans (s1 s2 s3 : state) (a b : list order) :
  scraped E summarizer s1 s2 a -> scraped E summarizer s2 s3 b ->
  scraped E summarizer s1 s3 (a ++ b).
Proof.
  intros (Hc1 & Ho1 & Ht1 & Hd1) (Hc2 & Ho2 & Ht2 & Hd2). repeat split.
  - etransitivity; eassumption.
  - apply Forall_app; split; assumption.
  - rewrite Ht2, Ht1, summarize_calls_app, app_assoc. reflexivity.
  - rewrite Hd2, Hd1. reflexivity.
Qed.

(** A step that leaves the cache alone and only logs. *)
Lemma scraped_write (s : state) (m : message) :
  scraped E summarizer s (mkState (order_text_cache s) (EvWrite m :: trace s)) [].
Proof. repeat split; [reflexivity | constructor]. Qed.

Lemma process_order_spec (title link : str) (d : date)
    (page_orders : list order) (s : state) :
  exists (text : str) (s1 s' : state),
    fetch_order_text E link
      (mkState (order_text_cache s) (EvWrite (MsgProcessing title d) :: trace s))
      = (Ret text, s1) /\
    process_order E summarizer title link d page_orders s =
      (Ret (page_orders ++
            [mkOrder d title link (summary_of summarizer text)
                     (classify_impact E text) text]), s') /\
    order_text_cache s' = order_text_cache s1 /\
    trace s' =
      (if str_is_empty text then []
       else match summarizer text with
            | Ret _ => [EvSummarize text]
            | Raise e => [EvWrite (MsgSummarizationError title e); EvSummarize text]
            end) ++ trace s1.
Proof.
  destruct (fetch_order_text_returns E link
              (mkState (order_text_cache s) (EvWrite (MsgProcessing title d) :: trace s)))
    as (text & s1 & Hf).
  exists text, s1.
  unfold process_order, bind, st_write, emit. cbn [fst snd]. rewrite Hf.
  unfold summary_of, try_except, call_summarizer, ret.
  destruct text as [|c text]; cbn [str_is_empty negb].
  - eexists; repeat split; reflexivity.
  - destruct (summarizer (c :: text)) as [summary|e];
      eexists; repeat split; reflexivity.
Qed.

Lemma process_order_scraped (title link : str) (d : date)
    (page_orders : list order) (s : state) :
  exists (o : order) (s' : state),
    process_order E summarizer title link d page_orders s =
      (Ret (page_orders ++ [o]), s') /\
    Date o = d /\ Title o = title /\ Link o = link /\
    scraped E summarizer s s' [o].
Proof.
  destruct (process_order_spec title link d page_orders s)
    as (text & s1 & s' & Hf & Hp & Hc & Ht).
  eexists; exists s'. split; [exact Hp|]. cbn [Date Title Link].
  do 3 (split; [reflexivity|]).
  pose proof (fetch_order_text_cache_grows E link
                (mkState (order_text_cache s) (EvWrite (MsgProcessing title d) :: trace s))) as Hg.
  pose proof (fetch_order_text_events is_summarize link
                (mkState (order_text_cache s) (EvWrite (MsgProcessing title d) :: trace s))
                (fun _ => eq_refl) (fun _ => eq_refl)) as Hn.
  pose proof (fetch_order_text_events is_dataframe link
                (mkState (order_text_cache s) (EvWrite (MsgProcessing title d) :: trace s))
                (fun _ => eq_refl) (fun _ => eq_refl)) as Hd.
  rewrite Hf in Hg, Hn, Hd. cbn [fst snd order_text_cache trace] in Hg, Hn, Hd.
  repeat split.
  - rewrite Hc. exact Hg.
  - constructor; [|constructor]. split; reflexivity.
  - rewrite Ht. unfold summarize_calls, has_text, events_of in *.
    cbn [List.filter Full_Text]. rewrite List.filter_app, Hn.
    destruct text as [|c text]; cbn [str_is_empty negb]; [reflexivity|].
    destruct (summarizer (c :: text)); reflexivity.
  - rewrite Ht. unfold events_of in *. rewrite List.filter_app, Hd.
    destruct text as [|c text]; cbn [str_is_empty negb]; [reflexivity|].
    destruct (summarizer (c :: text)); reflexivity.
Qed.

Lemma process_item_scraped (it : item) (page_orders : list order) (s : state) :
  exists (new : list order) (s' : state),
    process_item E summarizer it page_orders s = (Ret (page_orders ++ new), s') /\
    scraped E summarizer s s' new /\
    (item_lacks E it = true ->
       new = [] /\
       exists m, s' = mkState (order_text_cache s) (EvWrite m :: trace s)) /\
    (item_lacks E it = false -> exists o, new = [o]).
Proof.
  unfold process_item, item_lacks.
  assert (Hskip : forall m,
    exists (new : list order) (s' : state),
      (st_write m ;; ret page_orders) s = (Ret (page_orders ++ new), s') /\
      scraped E summarizer s s' new /\
      (true = true ->
         new = [] /\
         exists m, s' = mkState (order_text_cache s) (EvWrite m :: trace s)) /\
      (true = false -> exists o, new = [o])).
  { intros m. exists [], (mkState (order_text_cache s) (EvWrite m :: trace s)).
    rewrite app_nil_r. split; [reflexivity|]. split; [apply scraped_write|].
    split; [eauto | discriminate]. }
  destruct (item_find_h2 it) as [[[a|]]|]; try apply Hskip.
  destruct (item_find_time it) as [[[datetime|]]|]; cbn [time_datetime];
    try apply Hskip.
  destruct (fromisoformat E datetime) as [d|e]; try apply Hskip.
  cbn [h2_find_a].
  destruct (process_order_scraped (a_get_text a) (a_href a) d page_orders s)
    as (o & s' & Hp & _ & _ & _ & Hs).
  exists [o], s'. split; [exact Hp|]. split; [exact Hs|].
  split; [discriminate | eauto].
Qed.

Lemma items_loop_scraped (items : list item) (page_orders : list order) (s : state) :
  exists (new : list order) (s' : state),
    items_loop E summarizer items page_orders s = (Ret (page_orders ++ new), s') /\
    scraped E summarizer s s' new.
Proof.
  revert page_orders s. induction items as [|it rest IH]; intros page_orders s.
  - exists [], s. rewrite app_nil_r. split; [reflexivity | apply scraped_refl].
  - destruct (process_item_scraped it page_orders s) as (n1 & s1 & Hp & Hs1 & _).
    destruct (IH (page_orders ++ n1) s1) as (n2 & s2 & Hl & Hs2).
    exists (n1 ++ n2), s2. split.
    + cbn [items_loop]. unfold bind. rewrite Hp, Hl, app_assoc. reflexivity.
    + eapply scraped_trans; eassumption.
Qed.

(** A listing page that answers with another status than 200. *)
Lemma page_body_failed (page : nat) (s : state) (status : Z) (content : result soup) :
  requests_get E (requests_made s) (page_url page) = Response status content ->
  status <> 200%Z ->
  page_body E summarizer page s =
    (Ret None,
     mkState (order_text_cache s)
             (EvWrite (MsgFailedPage (page_url page) status)
              :: EvGet (page_url page)
              :: EvWrite (MsgFetchingPage (page_url page)) :: trace s)).
Proof.
  intros Hr Hst. unfold page_body, bind, st_write, emit, http_get.
  cbn [fst snd order_text_cache trace]. rewrite requests_made_write.
  destruct s as [c t]; cbn [order_text_cache trace]. rewrite Hr.
  apply Z.eqb_neq in Hst. rewrite Hst. reflexivity.
Qed.

Lemma page_body_spec (page : nat) (s : state) :
  match page_body E summarizer page s with
  | (Ret None, s') => scraped E summarizer s s' []
  | (Ret (Some new), s') => new <> [] /\ scraped E summarizer s s' new
  | (Raise e, s') =>
      listing_raises E (requests_made s) page e /\
      order_text_cache s' = order_text_cache s
  end.
Proof.
  unfold page_body, bind, st_write, emit, http_get, listing_raises.
  cbn [fst snd order_text_cache trace]. rewrite requests_made_write.
  destruct s as [c t]; cbn [order_text_cache trace].
  destruct (requests_get E (requests_made (mkState c t)) (page_url page))
    as [e|st [sp|e]].
  - split; [left|]; reflexivity.
  - destruct (st =? 200)%Z eqn:Hst; cbn [negb].
    + destruct (soup_select_items sp) as [|it items] eqn:Hitems.
      * repeat split; [reflexivity | constructor].
      * set (s1 := mkState c (EvGet (page_url page)
                              :: EvWrite (MsgFetchingPage (page_url page)) :: t)).
        destruct (items_loop_scraped (it :: items) [] s1) as (new & s' & Hl & Hs).
        rewrite Hl. cbn [app].
        assert (H01 : scraped E summarizer (mkState c t) s1 [])
          by (repeat split; [reflexivity | constructor]).
        pose proof (scraped_trans _ _ _ _ _ H01 Hs) as Hs'. cbn [app] in Hs'.
        destruct new as [|o new].
        -- unfold ret. destruct Hs' as (Hc & Ho & Ht & Hd).
           repeat split; [exact Hc | constructor | exact Ht | exact Hd].
        -- unfold ret. split; [discriminate | exact Hs'].
    + repeat split; [reflexivity | constructor].
  - destruct (st =? 200)%Z eqn:Hst; cbn [negb].
    + apply Z.eqb_eq in Hst. subst st. split; [right|]; reflexivity.
    + repeat split; [reflexivity | constructor].
Qed.

Lemma pages_loop_spec (fuel page : nat) (orders : list order) (s : state)
    (r : result (list order)) (s' : state) :
  pages_loop E summarizer fuel page orders s = Some (r, s') ->
  order_text_cache s ⊆ order_text_cache s' /\
  match r with
  | Ret all => exists new, all = orders ++ new /\ scraped E summarizer s s' new
  | Raise e => exists n page', listing_raises E n page' e
  end.
Proof.
  revert page orders s. induction fuel as [|fuel IH]; intros page orders s H.
  - discriminate.
  - cbn [pages_loop] in H. pose proof (page_body_spec page s) as Hb.
    destruct (page_body E summarizer page s) as [[[new|]|e] s1].
    + destruct Hb as [_ Hs1]. apply IH in H as [Hc Hr]. split.
      * etransitivity; [apply Hs1 | exact Hc].
      * destruct r as [all|e]; [|exact Hr].
        destruct Hr as (new' & -> & Hs2). exists (new ++ new').
        split; [by rewrite app_assoc | eapply scraped_trans; eassumption].
    + injection H as <- <-. split; [apply Hb|].
      exists []. rewrite app_nil_r. split; [reflexivity | exact Hb].
    + injection H as <- <-. destruct Hb as [Hraise Hc]. split.
      * rewrite Hc. reflexivity.
      * eauto.
Qed.

End Scrape.

(** ** Requests and the cache *)

Lemma fetch_order_text_requests_once (E : env) (url : str) (s : state) :
  order_text_cache s !! url = None ->
  exists (text : str) (s' : state),
    fetch_order_text E url s = (Ret text, s') /\
    events_of is_get (trace s') = EvGet url :: events_of is_get (trace s).
Proof.
  intros Hmiss. rewrite (fetch_order_text_miss E url s Hmiss).
  destruct (requests_get E (requests_made s) url) as [e|st [sp|e]];
    [eauto| |]; destruct (negb (st =? 200)%Z); eauto.
Qed.

(** C7. No failed HTTP request is retried.  A listing page that answers
    with a status other than 200 ends the pagination after the one request
    made for it.  A detail fetch that fails (status other than 200, or an
    exception) returns the empty string after the one request made for it,
    and leaves the cache as it was, so that the next call for the same URL
    sends a fresh request. *)
Theorem C7_no_retry (E : env) (summarizer : str -> result str) :
  (forall (fuel page : nat) (orders : list order) (s : state)
          (status : Z) (content : result soup),
     requests_get E (requests_made s) (page_url page) = Response status content ->
     status <> 200%Z ->
     pages_loop E summarizer (S fuel) page orders s =
       Some (Ret orders,
             mkState (order_text_cache s)
                     (EvWrite (MsgFailedPage (page_url page) status)
                      :: EvGet (page_url page)
                      :: EvWrite (MsgFetchingPage (page_url page)) :: trace s))) /\
  (forall (url : str) (s : state),
     order_text_cache s !! url = None ->
     fetch_fails (requests_get E (requests_made s) url) = true ->
     exists s' : state,
       fetch_order_text E url s = (Ret [], s') /\
       events_of is_get (trace s') = EvGet url :: events_of is_get (trace s) /\
       order_text_cache s' = order_text_cache s /\
       exists (text : str) (s'' : state),
         fetch_order_text E url s' = (Ret text, s'') /\
         events_of is_get (trace s'') =
           EvGet url :: EvGet url :: events_of is_get (trace s)).
Proof.
  split.
  - intros fuel page orders s status content Hr Hst. cbn [pages_loop].
    rewrite (page_body_failed E summarizer page s status content Hr Hst).
    reflexivity.
  - intros url s Hmiss Hfail.
    destruct (fetch_order_text_failure E url s Hmiss Hfail) as [m Hf].
    eexists. split; [exact Hf|]. cbn [order_text_cache trace].
    split; [reflexivity|]. split; [reflexivity|].
    set (s' := mkState (order_text_cache s) (EvWrite m :: requested url s)).
    destruct (fetch_order_text_requests_once E url s' Hmiss) as (text & s'' & Hf' & Hg).
    exists text, s''. split; [exact Hf' | exact Hg].
Qed.

Lemma C7_no_retry_witness :
  pages_loop ex_env ex_summarizer 1 2 [] initial_state =
    Some (Ret [],
          mkState ∅ [EvWrite (MsgFailedPage (page_url 2) 404);
                     EvGet (page_url 2);
                     EvWrite (MsgFetchingPage (page_url 2))]) /\
  exists s' : state,
    fetch_order_text ex_env ex_link2 initial_state = (Ret [], s') /\
    events_of is_get (trace s') = [EvGet ex_link2] /\
    order_text_cache s' = ∅ /\
    exists (text : str) (s'' : state),
      fetch_order_text ex_env ex_link2 s' = (Ret text, s'') /\
      events_of is_get (trace s'') = [EvGet ex_link2; EvGet ex_link2].
Proof.
  destruct (C7_no_retry ex_env ex_summarizer) as [Hpage Hdetail]. split.
  - apply (Hpage 0 2 [] initial_state 404%Z (Ret ex_not_found)).
    + vm_compute. reflexivity.
    + discriminate.
  - apply (Hdetail ex_link2 initial_state).
    + vm_compute. reflexivity.
    + vm_compute. reflexivity.
Defined.

(** C4. The cache is empty when the script starts and only grows, through
    calls of [fetch_order_text] and through the whole scrape.  Once a call
    has extracted a text for a URL, every later call for that URL, in any
    state the cache has grown to, returns that very text and does nothing
    but log: it sends no request. *)
Theorem C4_cache_idempotent (E : env) :
  order_text_cache initial_state = ∅ /\
  (forall (url : str) (s : state),
     order_text_cache s ⊆ order_text_cache (snd (fetch_order_text E url s))) /\
  (forall (summarizer : str -> result str) (fuel : nat) (s : state)
          (r : result (list order)) (s' : state),
     fetch_executive_orders E summarizer fuel s = Some (r, s') ->
     order_text_cache s ⊆ order_text_cache s') /\
  (forall (url : str) (s : state) (sp : soup),
     order_text_cache s !! url = None ->
     requests_get E (requests_made s) url = Response 200 (Ret sp) ->
     exists s' : state,
       fetch_order_text E url s = (Ret (extract_order_text sp), s') /\
       forall later : state,
         order_text_cache s' ⊆ order_text_cache later ->
         fetch_order_text E url later =
           (Ret (extract_order_text sp),
            mkState (order_text_cache later)
                    (EvWrite (MsgUsingCached url) :: trace later))).
Proof.
  split; [reflexivity|]. split; [apply fetch_order_text_cache_grows|]. split.
  - intros summarizer fuel s r s' H. unfold fetch_executive_orders in H.
    apply pages_loop_spec in H. apply H.
  - intros url s sp Hmiss Hr.
    rewrite (fetch_order_text_miss E url s Hmiss), Hr. cbn [Z.eqb Pos.eqb negb].
    eexists. split; [reflexivity|]. cbn [order_text_cache].
    intros later Hsub. apply fetch_order_text_hit.
    eapply lookup_weaken; [|exact Hsub]. apply lookup_insert_eq.
Qed.

Lemma C4_cache_idempotent_witness :
  exists s' : state,
    fetch_order_text ex_env ex_link1 initial_state = (Ret ex_long_text, s') /\
    forall later : state,
      order_text_cache s' ⊆ order_text_cache later ->
      fetch_order_text ex_env ex_link1 later =
        (Ret ex_long_text,
         mkState (order_text_cache later)
                 (EvWrite (MsgUsingCached ex_link1) :: trace later)).
Proof.
  destruct (C4_cache_idempotent ex_env) as (_ & _ & _ & Hidem).
  apply (Hidem ex_link1 initial_state ex_detail1).
  - vm_compute. reflexivity.
  - vm_compute. reflexivity.
Defined.

(** ** Failure handling *)

(** C3. Failures are logged and skipped, and none of them aborts the run.
    An item that lacks its <h2>, its <a> link or a parseable
    <time datetime> is skipped with one log line and the loop goes on with
    the remaining items.  A detail fetch that answers with a status other
    than 200, or raises, makes [fetch_order_text] return the empty string.
    When the call of the model raises, the order is recorded all the same,
    its Summary being "Summary generation error.".  The loop over the
    items of a page never raises, and the scrape as a whole raises only
    when the request for a listing page, or the parse of that page, does. *)
Theorem C3_log_and_skip (E : env) (summarizer : str -> result str) :
  (forall (it : item) (rest : list item) (page_orders : list order) (s : state),
     item_lacks E it = true ->
     exists m : message,
       process_item E summarizer it page_orders s =
         (Ret page_orders, mkState (order_text_cache s) (EvWrite m :: trace s)) /\
       items_loop E summarizer (it :: rest) page_orders s =
         items_loop E summarizer rest page_orders
                    (mkState (order_text_cache s) (EvWrite m :: trace s))) /\
  (forall (url : str) (s : state),
     order_text_cache s !! url = None ->
     fetch_fails (requests_get E (requests_made s) url) = true ->
     fst (fetch_order_text E url s) = Ret []) /\
  (forall (title link : str) (d : date) (page_orders : list order)
          (s : state) (text : str) (s1 : state) (e : exn),
     fetch_order_text E link
       (mkState (order_text_cache s) (EvWrite (MsgProcessing title d) :: trace s))
       = (Ret text, s1) ->
     text <> [] ->
     summarizer text = Raise e ->
     exists s' : state,
       process_order E summarizer title link d page_orders s =
         (Ret (page_orders ++
               [mkOrder d title link (py "Summary generation error.")
                        (classify_impact E text) text]), s')) /\
  (forall (items : list item) (page_orders : list order) (s : state),
     exists (page_orders' : list order) (s' : state),
       items_loop E summarizer items page_orders s = (Ret page_orders', s')) /\
  (forall (fuel : nat) (s : state) (e : exn) (s' : state),
     fetch_executive_orders E summarizer fuel s = Some (Raise e, s') ->
     exists n page : nat, listing_raises E n page e).
Proof.
  split; [|split; [|split; [|split]]].
  - intros it rest page_orders s Hlacks.
    destruct (process_item_scraped E summarizer it page_orders s)
      as (new & s' & Hp & _ & Hskip & _).
    destruct (Hskip Hlacks) as (-> & m & ->). rewrite app_nil_r in Hp.
    exists m. split; [exact Hp|]. cbn [items_loop]. unfold bind. rewrite Hp.
    reflexivity.
  - intros url s Hmiss Hfail.
    destruct (fetch_order_text_failure E url s Hmiss Hfail) as [m ->]. reflexivity.
  - intros title link d page_orders s text s1 e Hf Hne He.
    destruct (process_order_spec E summarizer title link d page_orders s)
      as (text' & s1' & s' & Hf' & Hp & _).
    rewrite Hf in Hf'. injection Hf' as <- <-. exists s'. rewrite Hp.
    unfold summary_of. rewrite He. destruct text; [contradiction | reflexivity].
  - intros items page_orders s.
    destruct (items_loop_scraped E summarizer items page_orders s)
      as (new & s' & Hl & _). eauto.
  - intros fuel s e s' H. unfold fetch_executive_orders in H.
    apply pages_loop_spec in H. apply H.
Qed.

Lemma C3_log_and_skip_witness :
  (exists m : message,
     process_item ex_env ex_summarizer
       (mkItem None (Some (mkTime (Some (py "2025-02-01T10:00:00-05:00")))))
       [ex_order1] initial_state
       = (Ret [ex_order1], mkState ∅ [EvWrite m]) /\
     items_loop ex_env ex_summarizer
       [mkItem None (Some (mkTime (Some (py "2025-02-01T10:00:00-05:00"))))]
       [ex_order1] initial_state
       = items_loop ex_env ex_summarizer [] [ex_order1] (mkState ∅ [EvWrite m])) /\
  fst (fetch_order_text ex_env ex_link2 initial_state) = Ret [] /\
  (exists s' : state,
     process_order ex_env ex_summarizer (py "Order Three") ex_link3
       (mkDate 2025 1 20) [] initial_state = (Ret [ex_order3], s')).
Proof.
  destruct (C3_log_and_skip ex_env ex_summarizer) as (Hitem & Hfetch & Hsum & _).
  split; [|split].
  - apply (Hitem (mkItem None (Some (mkTime (Some (py "2025-02-01T10:00:00-05:00")))))
                 [] [ex_order1] initial_state).
    vm_compute. reflexivity.
  - apply (Hfetch ex_link2 initial_state).
    + vm_compute. reflexivity.
    + vm_compute. reflexivity.
  - apply (Hsum (py "Order Three") ex_link3 (mkDate 2025 1 20) [] initial_state
                (py "menu Short notice. footer")
                (mkState (<[ex_link3 := py "menu Short notice. footer"]> ∅)
                         (requested ex_link3
                            (mkState ∅ [EvWrite (MsgProcessing (py "Order Three")
                                                               (mkDate 2025 1 20))])))
                (py "input too short")).
    + vm_cast_no_check
        (@eq_refl (result str * state)
           (Ret (py "menu Short notice. footer"),
            mkState (<[ex_link3 := py "menu Short notice. footer"]> ∅)
                    (requested ex_link3
                       (mkState ∅ [EvWrite (MsgProcessing (py "Order Three")
                                                          (mkDate 2025 1 20))])))).
    + discriminate.
    + vm_compute. reflexivity.
Defined.

(** ** The table *)

Section Table.
Variable d : date.

Lemma series_of_dates (orders : list order) (i : nat) :
  series_of 0 (index_rows i orders) = Ret (date_series i orders).
Proof.
  revert i. induction orders as [|o rest IH]; intros i.
  - reflexivity.
  - cbn [index_rows series_of date_series]. rewrite IH. reflexivity.
Qed.

Lemma series_ge_dates (orders : list order) (i : nat) :
  series_ge (date_series i orders) d = Ret (date_mask d i orders).
Proof.
  revert i. induction orders as [|o rest IH]; intros i.
  - reflexivity.
  - cbn [date_series series_ge date_mask]. rewrite IH. reflexivity.
Qed.

Lemma find_append {A} (p : A -> bool) (l1 l2 : list A) :
  List.find p (l1 ++ l2) =
    match List.find p l1 with Some x => Some x | None => List.find p l2 end.
Proof.
  induction l1 as [|a l1 IH]; cbn; [reflexivity|].
  destruct (p a); [reflexivity | exact IH].
Qed.

Lemma find_none_below (m : list (nat * bool)) (i label : nat) :
  Forall (fun lb => fst lb < i) m -> i <= label ->
  List.find (fun lb => fst lb =? label) m = None.
Proof.
  intros Hm Hle. induction Hm as [|lb m Hlb _ IH]; [reflexivity|].
  cbn [List.find]. destruct (fst lb =? label) eqn:Heq; [|exact IH].
  apply Nat.eqb_eq in Heq. lia.
Qed.

Lemma mask_at_head (m : list (nat * bool)) (i : nat) (b : bool)
    (rest : list (nat * bool)) :
  Forall (fun lb => fst lb < i) m ->
  mask_at (m ++ (i, b) :: rest) i = b.
Proof.
  intros Hm. unfold mask_at. rewrite find_append.
  rewrite (find_none_below m i i Hm (Nat.le_refl i)).
  cbn [List.find fst]. rewrite Nat.eqb_refl. reflexivity.
Qed.

(** Boolean indexing keeps the rows the mask marks, whatever entries
    with smaller labels come before in the mask. *)
Lemma filter_by_mask (orders : list order) (i : nat) (m : list (nat * bool)) :
  Forall (fun lb => fst lb < i) m ->
  List.map (fun r => (fst r, pick_cells [0; 1; 2; 3; 4] (snd r)))
    (List.filter (fun r => mask_at (m ++ date_mask d i orders) (fst r))
                 (index_rows i orders))
  = shown_rows d i orders.
Proof.
  revert i m. induction orders as [|o rest IH]; intros i m Hm.
  - reflexivity.
  - cbn [index_rows date_mask List.filter shown_rows fst].
    rewrite (mask_at_head m i _ _ Hm).
    assert (Hm' : Forall (fun lb => fst lb < S i)
                         (m ++ [(i, date_ge (Date o) d)])).
    { apply Forall_app; split.
      - eapply Forall_impl; [exact Hm|]. cbn. intros; lia.
      - constructor; [cbn; lia | constructor]. }
    specialize (IH (S i) _ Hm'). rewrite <- app_assoc in IH. cbn [app] in IH.
    destruct (date_ge (Date o) d).
    + cbn [List.map fst snd]. rewrite IH. reflexivity.
    + exact IH.
Qed.

Lemma shown_rows_cells (orders : list order) (i : nat) :
  List.map snd (shown_rows d i orders) =
  List.map displayed_cells (List.filter (fun o => date_ge (Date o) d) orders).
Proof.
  revert i. induction orders as [|o rest IH]; intros i.
  - reflexivity.
  - cbn [shown_rows List.filter]. destruct (date_ge (Date o) d).
    + cbn [List.map snd]. rewrite IH. reflexivity.
    + apply IH.
Qed.

(** The labels shown are the positions of the rows in the full list. *)
Lemma shown_rows_labels (orders : list order) (i label : nat) (cells : list cell) :
  In (label, cells) (shown_rows d i orders) ->
  exists o, orders !! (label - i) = Some o /\ i <= label /\
            cells = displayed_cells o /\ date_ge (Date o) d = true.
Proof.
  revert i. induction orders as [|o rest IH]; intros i Hin.
  - destruct Hin.
  - cbn [shown_rows] in Hin.
    assert (Htail : In (label, cells) (shown_rows d (S i) rest) ->
                    exists o', (o :: rest) !! (label - i) = Some o' /\ i <= label /\
                               cells = displayed_cells o' /\ date_ge (Date o') d = true).
    { intros H. apply IH in H as (o' & Hl & Hle & Hc & Hd). exists o'.
      replace (label - i) with (S (label - S i)) by lia.
      repeat split; [exact Hl | lia | exact Hc | exact Hd]. }
    destruct (date_ge (Date o) d) eqn:Hd; [|auto].
    destruct Hin as [Heq|Hin]; [|auto].
    injection Heq as <- <-. exists o. rewrite Nat.sub_diag.
    repeat split; [lia | exact Hd].
Qed.

End Table.

Lemma render_spec (E : env) (orders : list order) (s : state) :
  render E orders s =
    (Ret tt, mkState (order_text_cache s) (render_events E orders ++ trace s)).
Proof.
  destruct orders as [|o rest].
  - reflexivity.
  - unfold render, render_events.
    change (DataFrame_of_orders (o :: rest))
      with (mkDF order_keys (index_rows 0 (o :: rest))).
    assert (Hne : df_empty (mkDF order_keys (index_rows 0 (o :: rest))) = false)
      by reflexivity.
    rewrite Hne. unfold df_column. cbn [columns rows].
    change (column_index "Date" order_keys) with (Some 0).
    cbv beta iota. rewrite series_of_dates.
    unfold bind, emit, st_write, lift, ret. cbn [fst snd order_text_cache trace].
    rewrite series_ge_dates. unfold df_select, df_where. cbn [columns rows].
    change (column_indices displayed_columns order_keys) with (Ret [0; 1; 2; 3; 4]).
    cbn [order_text_cache trace].
    pose proof (filter_by_mask (date_input E) (o :: rest) 0 [] ltac:(constructor))
      as Hrows.
    rewrite app_nil_l in Hrows. cbv beta iota. rewrite Hrows. reflexivity.
Qed.

(** ** A complete run *)

Lemma main_unfold (E : env) (fuel : nat) (s : state) :
  main E fuel s =
    match pipeline E with
    | Raise e => Some (Raise e, ready s)
    | Ret summarizer =>
        match fetch_executive_orders E summarizer fuel (ready s) with
        | None => None
        | Some (Raise e, s2) => Some (Raise e, s2)
        | Some (Ret orders, s2) => Some (render E orders s2)
        end
    end.
Proof.
  unfold main, get_summarizer, bind, emit, st_write, lift, ready.
  cbn [fst snd order_text_cache trace].
  destruct (pipeline E); reflexivity.
Qed.

Lemma main_complete (E : env) (fuel : nat) (s s' : state) :
  main E fuel s = Some (Ret tt, s') ->
  exists (summarizer : str -> result str) (orders : list order) (s2 : state),
    pipeline E = Ret summarizer /\
    fetch_executive_orders E summarizer fuel (ready s) = Some (Ret orders, s2) /\
    s' = mkState (order_text_cache s2) (render_events E orders ++ trace s2).
Proof.
  rewrite main_unfold.
  destruct (pipeline E) as [summarizer|e]; [|discriminate].
  destruct (fetch_executive_orders E summarizer fuel (ready s))
    as [[[orders|e] s2]|] eqn:Hrun; [|discriminate|discriminate].
  rewrite render_spec. intros H. injection H as H. subst s'.
  exists summarizer, orders, s2. split; [reflexivity|]. split; [exact Hrun|].
  reflexivity.
Qed.

Lemma date_ge_spec (a b : date) :
  date_ge a b = true <->
  year b < year a \/
  (year a = year b /\ (month b < month a \/ (month a = month b /\ day b <= day a))).
Proof.
  unfold date_ge.
  destruct (year b <? year a) eqn:H1; [apply Nat.ltb_lt in H1; intuition lia|].
  apply Nat.ltb_ge in H1.
  destruct (year a <? year b) eqn:H2;
    [apply Nat.ltb_lt in H2; split; [discriminate | lia]|].
  apply Nat.ltb_ge in H2.
  destruct (month b <? month a) eqn:H3; [apply Nat.ltb_lt in H3; intuition lia|].
  apply Nat.ltb_ge in H3.
  destruct (month a <? month b) eqn:H4;
    [apply Nat.ltb_lt in H4; split; [discriminate | lia]|].
  apply Nat.ltb_ge in H4. rewrite Nat.leb_le. lia.
Qed.

(** C2. Date filtering is a pure row filter.  For every list of orders and
    every day chosen in the date input, the end of [main] renders, when
    the list is not empty, one table whose rows are exactly the orders
    dated on or after that day: each row shows the cells of its order
    unchanged, under the label of the order's position, in the order of
    the list, and no other row appears. *)
Theorem C2_date_filter (E : env) (orders : list order) (s : state) :
  exists s' : state,
    render E orders s = (Ret tt, s') /\
    events_of is_dataframe (trace s') =
      match orders with
      | [] => []
      | _ => [EvDataframe (mkDF displayed_columns (shown_rows (date_input E) 0 orders))]
      end ++ events_of is_dataframe (trace s) /\
    List.map snd (shown_rows (date_input E) 0 orders) =
      List.map displayed_cells
        (List.filter (fun o => date_ge (Date o) (date_input E)) orders) /\
    forall (label : nat) (cells : list cell),
      In (label, cells) (shown_rows (date_input E) 0 orders) ->
      exists o, orders !! label = Some o /\ cells = displayed_cells o /\
                date_ge (Date o) (date_input E) = true.
Proof.
  eexists. split; [apply render_spec|]. cbn [trace]. split; [|split].
  - unfold events_of. rewrite List.filter_app. destruct orders; reflexivity.
  - apply shown_rows_cells.
  - intros label cells Hin.
    apply shown_rows_labels in Hin as (o & Hl & _ & Hc & Hd).
    rewrite Nat.sub_0_r in Hl. eauto.
Qed.

Lemma C2_date_filter_witness :
  exists s' : state,
    render ex_env [ex_order1; ex_order2; ex_order3] initial_state = (Ret tt, s') /\
    events_of is_dataframe (trace s') =
      [EvDataframe (mkDF displayed_columns
                         [(0, displayed_cells ex_order1); (2, displayed_cells ex_order3)])] /\
    exists o, [ex_order1; ex_order2; ex_order3] !! 2 = Some o /\
              displayed_cells ex_order3 = displayed_cells o /\
              date_ge (Date o) (date_input ex_env) = true.
Proof.
  destruct (C2_date_filter ex_env [ex_order1; ex_order2; ex_order3] initial_state)
    as (s' & Hr & Hev & _ & Hrows).
  exists s'. split; [exact Hr|]. split; [exact Hev|].
  apply (Hrows 2 (displayed_cells ex_order3)).
  right. left. reflexivity.
Defined.

Lemma index_rows_lookup (orders : list order) (k i : nat) (o : order) :
  orders !! i = Some o -> index_rows k orders !! i = Some (k + i, order_cells o).
Proof.
  revert k i. induction orders as [|o' rest IH]; intros k i H.
  - discriminate.
  - destruct i as [|i]; cbn [index_rows].
    + injection H as ->. rewrite Nat.add_0_r. reflexivity.
    + change (index_rows (S k) rest !! i = Some (k + S i, order_cells o)).
      rewrite (IH (S k) i H). f_equal. f_equal. lia.
Qed.

Lemma scrape_from_ready (E : env) (summarizer : str -> result str) (fuel : nat)
    (orders : list order) (s2 : state) :
  fetch_executive_orders E summarizer fuel (ready initial_state) = Some (Ret orders, s2) ->
  Forall (order_ok E summarizer) orders /\
  events_of is_summarize (trace s2) = summarize_calls orders /\
  events_of is_dataframe (trace s2) = [].
Proof.
  intros H. unfold fetch_executive_orders in H.
  apply pages_loop_spec in H as (_ & new & -> & _ & Hok & Hsum & Hdf).
  cbn [app]. rewrite Hsum, Hdf. cbn. rewrite app_nil_r. auto.
Qed.

Lemma shown_rows_displayed (d : date) (orders orders' : list order) (i : nat) :
  List.map displayed_cells orders' = List.map displayed_cells orders ->
  shown_rows d i orders' = shown_rows d i orders.
Proof.
  revert orders' i. induction orders as [|o rest IH]; intros [|o' rest'] i H;
    try discriminate H; [reflexivity|].
  cbn [List.map] in H.
  assert (Hcells : displayed_cells o' = displayed_cells o) by congruence.
  assert (Hrest : List.map displayed_cells rest' = List.map displayed_cells rest)
    by congruence.
  assert (Hdate : Date o' = Date o)
    by (unfold displayed_cells in Hcells; congruence).
  cbn [shown_rows]. rewrite Hdate, Hcells, (IH rest' (S i) Hrest). reflexivity.
Qed.

(** What is rendered does not look at the Full Text. *)
Lemma render_displayed (E : env) (orders orders' : list order) (s : state) :
  List.map displayed_cells orders' = List.map displayed_cells orders ->
  render E orders' s = render E orders s.
Proof.
  intros H. rewrite !render_spec. f_equal. f_equal. f_equal.
  destruct orders as [|o rest], orders' as [|o' rest']; try discriminate H;
    [reflexivity|].
  unfold render_events.
  rewrite (shown_rows_displayed (date_input E) (o :: rest) (o' :: rest') 0 H).
  reflexivity.
Qed.

(** C10. A complete run that scraped at least one order renders one table,
    and one that scraped none renders no table.  The table has exactly the
    columns Date, Title, Link, Summary and Impact; each of its rows holds,
    under the label of an order of the scrape, the Date, Title, Link,
    Summary and Impact of that order.  The Full Text of every scraped
    order is a column of the frame built from the orders and is the text
    the Impact of the order is computed from; it is no column of the
    table, and what is rendered is the same for any other list of orders
    that differs in the Full Texts only. *)
Theorem C10_displayed_columns (E : env) (fuel : nat) (s' : state) :
  main E fuel initial_state = Some (Ret tt, s') ->
  exists (summarizer : str -> result str) (orders : list order) (s2 : state),
    pipeline E = Ret summarizer /\
    fetch_executive_orders E summarizer fuel (ready initial_state)
      = Some (Ret orders, s2) /\
    render E orders s2 = (Ret tt, s') /\
    events_of is_dataframe (trace s') =
      match orders with
      | [] => []
      | _ => [EvDataframe
                (mkDF ["Date"; "Title"; "Link"; "Summary"; "Impact"]%string
                      (shown_rows (date_input E) 0 orders))]
      end /\
    (forall df : DataFrame,
       In (EvDataframe df) (trace s') ->
       columns df = ["Date"; "Title"; "Link"; "Summary"; "Impact"]%string /\
       ~ In "Full Text"%string (columns df) /\
       forall (label : nat) (cells : list cell),
         In (label, cells) (rows df) ->
         exists o : order,
           orders !! label = Some o /\
           cells = [CDate (Date o); CStr (Title o); CStr (Link o);
                    CStr (Summary o); CStr (Impact o)]) /\
    (forall (i : nat) (o : order),
       orders !! i = Some o ->
       Impact o = classify_impact E (Full_Text o) /\
       column_index "Full Text" (columns (DataFrame_of_orders orders)) = Some 5 /\
       exists cells, rows (DataFrame_of_orders orders) !! i = Some (i, cells) /\
                     cells !! 5 = Some (CStr (Full_Text o))) /\
    (forall (orders' : list order) (s : state),
       List.map displayed_cells orders' = List.map displayed_cells orders ->
       render E orders' s = render E orders s).
Proof.
  intros Hmain.
  apply main_complete in Hmain as (summarizer & orders & s2 & Hp & Hrun & ->).
  pose proof (scrape_from_ready E summarizer fuel orders s2 Hrun) as (Hok & _ & Hdf).
  assert (Htables :
    events_of is_dataframe (render_events E orders ++ trace s2) =
      match orders with
      | [] => []
      | _ => [EvDataframe (mkDF displayed_columns (shown_rows (date_input E) 0 orders))]
      end).
  { unfold events_of in *. rewrite List.filter_app, Hdf, app_nil_r.
    destruct orders; reflexivity. }
  exists summarizer, orders, s2.
  split; [exact Hp|]. split; [exact Hrun|].
  split; [rewrite render_spec; reflexivity|].
  split; [exact Htables|]. split; [|split].
  - intros df Hin. cbn [trace] in Hin.
    assert (Hf : In (EvDataframe df)
                    (events_of is_dataframe (render_events E orders ++ trace s2)))
      by (apply filter_In; split; [exact Hin | reflexivity]).
    rewrite Htables in Hf. destruct orders as [|o rest]; [destruct Hf|].
    destruct Hf as [Hf|[]]. injection Hf as <-. cbn [columns rows].
    split; [reflexivity|]. split.
    + cbn. intros H. repeat (destruct H as [H|H]; [discriminate|]). exact H.
    + intros label cells Hrow.
      change (In (label, cells) (shown_rows (date_input E) 0 (o :: rest))) in Hrow.
      apply shown_rows_labels in Hrow as (o' & Hl & _ & Hc & _).
      rewrite Nat.sub_0_r in Hl. exists o'. split; [exact Hl | exact Hc].
  - intros i o Hi. split; [|split].
    + rewrite List.Forall_forall in Hok. apply (Hok o).
      apply list_elem_of_In. eapply list_elem_of_lookup_2. exact Hi.
    + destruct orders; [discriminate | reflexivity].
    + exists (order_cells o). split; [|reflexivity].
      destruct orders as [|o0 rest]; [discriminate|].
      change (DataFrame_of_orders (o0 :: rest))
        with (mkDF order_keys (index_rows 0 (o0 :: rest))).
      cbn [rows]. apply (index_rows_lookup (o0 :: rest) 0 i o Hi).
  - intros orders' s H. apply render_displayed. exact H.
Qed.

Lemma C10_displayed_columns_witness :
  main ex_env 5 initial_state = Some (Ret tt, ex_final) /\
  events_of is_dataframe (trace ex_final) =
    [EvDataframe
       (mkDF ["Date"; "Title"; "Link"; "Summary"; "Impact"]%string
             [(0, displayed_cells ex_order1); (2, displayed_cells ex_order3)])].
Proof.
  assert (Hmain : main ex_env 5 initial_state = Some (Ret tt, ex_final))
    by (vm_cast_no_check (@eq_refl _ (Some (Ret tt, ex_final)))).
  split; [exact Hmain|].
  destruct (C10_displayed_columns ex_env 5 ex_final Hmain)
    as (summarizer & orders & s2 & _ & _ & _ & _ & Hcols & _).
  assert (Hshape : exists df, events_of is_dataframe (trace ex_final) = [EvDataframe df] /\
                              rows df = [(0, displayed_cells ex_order1);
                                         (2, displayed_cells ex_order3)])
    by (eexists; split; vm_compute; reflexivity).
  destruct Hshape as (df & Hev & Hrows). rewrite Hev.
  assert (Hin : In (EvDataframe df) (trace ex_final)).
  { assert (Hf : In (EvDataframe df) (events_of is_dataframe (trace ex_final)))
      by (rewrite Hev; left; reflexivity).
    apply filter_In in Hf. apply Hf. }
  destruct (Hcols df Hin) as (Hc & _). destruct df as [cols rws].
  cbn [columns rows] in Hc, Hrows. rewrite Hc, Hrows. reflexivity.
Defined.

(** ** Summaries *)

Lemma summarize_calls_texts (orders : list order) (text : str) :
  In (EvSummarize text) (summarize_calls orders) ->
  text <> [] /\ exists o, In o orders /\ Full_Text o = text.
Proof.
  unfold summarize_calls. rewrite <- in_rev, in_map_iff.
  intros (o & Heq & Hin). injection Heq as <-.
  apply filter_In in Hin as [Hin Htext]. unfold has_text in Htext.
  split; [|eauto]. intros Hempty. rewrite Hempty in Htext. discriminate Htext.
Qed.

(** C5, as the code has it.  The calls of the model made during a scrape
    are, in the order of the list, one for each recorded order whose
    fetched text is not empty, on that text, and no other.  For every
    order appended to the results: when its fetched text is empty the
    model is not called and the Summary is the empty string; when the text
    is not empty the model is called once on it, and the Summary is its
    answer, or "Summary generation error." when the call raises. *)
Theorem C5_summary_per_order (E : env) (summarizer : str -> result str) :
  (forall (fuel : nat) (s : state) (orders : list order) (s' : state),
     fetch_executive_orders E summarizer fuel s = Some (Ret orders, s') ->
     events_of is_summarize (trace s') =
       summarize_calls orders ++ events_of is_summarize (trace s) /\
     (forall text : str,
        In (EvSummarize text) (summarize_calls orders) ->
        text <> [] /\ exists o, In o orders /\ Full_Text o = text) /\
     forall o : order,
       In o orders ->
       (Full_Text o = [] -> Summary o = []) /\
       (forall summary : str,
          Full_Text o <> [] -> summarizer (Full_Text o) = Ret summary ->
          Summary o = summary) /\
       (forall e : exn,
          Full_Text o <> [] -> summarizer (Full_Text o) = Raise e ->
          Summary o = py "Summary generation error.")) /\
  (forall (title link : str) (d : date) (page_orders : list order)
          (s : state) (text : str) (s1 : state),
     fetch_order_text E link
       (mkState (order_text_cache s) (EvWrite (MsgProcessing title d) :: trace s))
       = (Ret text, s1) ->
     (text = [] ->
      process_order E summarizer title link d page_orders s =
        (Ret (page_orders ++ [mkOrder d title link [] (classify_impact E text) text]),
         s1)) /\
     (forall summary : str,
        text <> [] -> summarizer text = Ret summary ->
        process_order E summarizer title link d page_orders s =
          (Ret (page_orders ++
                [mkOrder d title link summary (classify_impact E text) text]),
           mkState (order_text_cache s1) (EvSummarize text :: trace s1))) /\
     (forall e : exn,
        text <> [] -> summarizer text = Raise e ->
        process_order E summarizer title link d page_orders s =
          (Ret (page_orders ++
                [mkOrder d title link (py "Summary generation error.")
                         (classify_impact E text) text]),
           mkState (order_text_cache s1)
                   (EvWrite (MsgSummarizationError title e)
                    :: EvSummarize text :: trace s1)))).
Proof.
  split.
  - intros fuel s orders s' H. unfold fetch_executive_orders in H.
    apply pages_loop_spec in H as (_ & new & -> & _ & Hok & Hcalls & _).
    cbn [app]. split; [exact Hcalls|]. split; [apply summarize_calls_texts|].
    intros o Hin. rewrite List.Forall_forall in Hok.
    destruct (Hok o Hin) as [Hsum _]. rewrite Hsum. unfold summary_of.
    destruct (Full_Text o) as [|c text]; cbn [str_is_empty].
    + split; [reflexivity|]. split; intros; contradiction.
    + split; [discriminate|]. split.
      * intros summary _ ->. reflexivity.
      * intros e _ ->. reflexivity.
  - intros title link d page_orders s text s1 Hf.
    unfold process_order, bind, st_write, emit. cbn [fst snd]. rewrite Hf.
    unfold try_except, call_summarizer, ret.
    destruct text as [|c text]; cbn [str_is_empty negb].
    + split; [reflexivity|]. split; intros; contradiction.
    + split; [discriminate|]. split.
      * intros summary _ ->. reflexivity.
      * intros e _ ->. reflexivity.
Qed.

Lemma C5_summary_per_order_witness :
  (events_of is_summarize (trace ex_scraped) =
     [EvSummarize (Full_Text ex_order3); EvSummarize (Full_Text ex_order1)] /\
   Summary ex_order1 = py "A national emergency is declared." /\
   Summary ex_order2 = [] /\
   Summary ex_order3 = py "Summary generation error.") /\
  process_order ex_env ex_summarizer (py "Order Two") ex_link2 (mkDate 2024 12 25)
    [] initial_state
    = (Ret [ex_order2],
       mkState ∅ (EvWrite (MsgFailedDetail ex_link2)
                  :: requested ex_link2
                       (mkState ∅ [EvWrite (MsgProcessing (py "Order Two")
                                                          (mkDate 2024 12 25))]))).
Proof.
  destruct (C5_summary_per_order ex_env ex_summarizer) as [Hscrape Horder].
  split.
  - assert (Hrun : fetch_executive_orders ex_env ex_summarizer 5 initial_state
                   = Some (Ret [ex_order1; ex_order2; ex_order3], ex_scraped))
      by (vm_cast_no_check
            (@eq_refl _ (Some (Ret [ex_order1; ex_order2; ex_order3], ex_scraped)))).
    destruct (Hscrape 5 initial_state [ex_order1; ex_order2; ex_order3] ex_scraped Hrun)
      as (Hcalls & _ & H).
    split; [exact Hcalls|]. split; [|split].
    + destruct (H ex_order1 ltac:(left; reflexivity)) as (_ & Hret & _).
      apply Hret; [discriminate | vm_compute; reflexivity].
    + destruct (H ex_order2 ltac:(right; left; reflexivity)) as (Hempty & _).
      apply Hempty. reflexivity.
    + destruct (H ex_order3 ltac:(right; right; left; reflexivity)) as (_ & _ & Hraise).
      apply (Hraise (py "input too short")); [discriminate | vm_compute; reflexivity].
  - apply (Horder (py "Order Two") ex_link2 (mkDate 2024 12 25) [] initial_state []).
    + vm_compute. reflexivity.
    + reflexivity.
Defined.

(** C5 read to the letter fails: on the example site the second order has
    an empty text, its Summary is empty, and a model that answers every
    text would not have answered with the empty string. *)
Lemma C5_counterexample : ~ summary_is_model_output.
Proof.
  intros H.
  assert (Hrun : fetch_executive_orders ex_env ex_constant_summarizer 5 initial_state
                 = Some (Ret ex_constant_orders, ex_constant_scraped))
    by (vm_cast_no_check
          (@eq_refl _ (Some (Ret ex_constant_orders, ex_constant_scraped)))).
  specialize (H ex_env ex_constant_summarizer 5 initial_state
                ex_constant_orders ex_constant_scraped Hrun ex_order2).
  assert (Hin : In ex_order2 ex_constant_orders) by (right; left; reflexivity).
  specialize (H Hin). discriminate H.
Qed.

(** C6, as the code has it.  A complete run calls the model once for each
    recorded order whose fetched text is not empty, in the order of the
    list, and for no other text; it renders at most one table. *)
Theorem C6_summarization_calls (E : env) (fuel : nat) (s' : state) :
  main E fuel initial_state = Some (Ret tt, s') ->
  exists (summarizer : str -> result str) (orders : list order) (s2 : state),
    pipeline E = Ret summarizer /\
    fetch_executive_orders E summarizer fuel (ready initial_state)
      = Some (Ret orders, s2) /\
    events_of is_summarize (trace s') = summarize_calls orders /\
    List.length (events_of is_summarize (trace s'))
      = List.length (List.filter has_text orders) /\
    List.length (events_of is_dataframe (trace s')) <= 1.
Proof.
  intros Hmain.
  apply main_complete in Hmain as (summarizer & orders & s2 & Hp & Hrun & ->).
  pose proof (scrape_from_ready E summarizer fuel orders s2 Hrun) as (_ & Hsum & Hdf).
  exists summarizer, orders, s2. split; [exact Hp|]. split; [exact Hrun|].
  cbn [trace]. unfold events_of in *. rewrite !List.filter_app, Hsum, Hdf.
  assert (Hnone : List.filter is_summarize (render_events E orders) = [])
    by (destruct orders; reflexivity).
  rewrite Hnone. cbn [app]. split; [reflexivity|]. split.
  - unfold summarize_calls. rewrite length_rev, length_map. reflexivity.
  - rewrite app_nil_r. destruct orders; cbn; lia.
Qed.

Lemma C6_summarization_calls_witness :
  main ex_env 5 initial_state = Some (Ret tt, ex_final) /\
  exists (summarizer : str -> result str) (orders : list order) (s2 : state),
    pipeline ex_env = Ret summarizer /\
    fetch_executive_orders ex_env summarizer 5 (ready initial_state)
      = Some (Ret orders, s2) /\
    events_of is_summarize (trace ex_final) = summarize_calls orders /\
    List.length (events_of is_summarize (trace ex_final))
      = List.length (List.filter has_text orders) /\
    List.length (events_of is_dataframe (trace ex_final)) <= 1.
Proof.
  assert (Hmain : main ex_env 5 initial_state = Some (Ret tt, ex_final))
    by (vm_cast_no_check (@eq_refl _ (Some (Ret tt, ex_final)))).
  split; [exact Hmain|].
  apply (C6_summarization_calls ex_env 5 ex_final Hmain).
Defined.

(** C6 read to the letter fails: the run on the example site calls the
    model twice, once for the first order and once for the third. *)
Lemma C6_counterexample : ~ single_summarization_call.
Proof.
  intros H.
  assert (Hmain : main ex_constant_env 5 initial_state
                  = Some (Ret tt, ex_constant_final))
    by (vm_cast_no_check (@eq_refl _ (Some (Ret tt, ex_constant_final)))).
  specialize (H ex_constant_env 5 ex_constant_final Hmain). discriminate H.
Qed.

(** ** Lower case and the keyword *)

Section Lower.
Variable E : env.
Variable keyword : str.
Hypothesis keyword_ascii : Forall (fun x => (x < 128)%N) keyword.
Hypothesis keyword_lower : Forall (fun x => ascii_lower x = x) keyword.
Hypothesis keyword_nonempty : keyword <> [].
Hypothesis respects : lower_respects E keyword.

Lemma ascii_lower_high (c : char) : (128 <= c)%N -> ascii_lower c = c.
Proof.
  intros H. unfold ascii_lower.
  destruct (c <=? 90)%N eqn:H90; [apply N.leb_le in H90; lia|].
  rewrite andb_false_r. reflexivity.
Qed.

Lemma same_letter_low (a c : char) :
  ascii_lower a = a -> same_letter a c = (a =? ascii_lower c)%N.
Proof. intros Ha. unfold same_letter. rewrite Ha. reflexivity. Qed.

Lemma same_letter_high (a c : char) :
  (a < 128)%N -> ascii_lower a = a -> (128 <= c)%N -> same_letter a c = false.
Proof.
  intros Ha Hl Hc. unfold same_letter. rewrite Hl, (ascii_lower_high c Hc).
  apply N.eqb_neq. lia.
Qed.

(** A window that starts inside the lower-case form of a code point
    outside ASCII cannot be the keyword. *)
Lemma startswith_block (a : char) (p block rest : str) :
  block <> [] -> (forall y, In y block -> y <> a) ->
  startswith (a :: p) (block ++ rest) = false.
Proof.
  intros Hne Hb. destruct block as [|y block]; [contradiction|].
  cbn [app startswith]. apply andb_false_intro1. apply N.eqb_neq.
  intros ->. apply (Hb y); [left|]; reflexivity.
Qed.

Lemma str_in_block (a : char) (p block rest : str) :
  (forall y, In y block -> y <> a) ->
  str_in (a :: p) (block ++ rest) = str_in (a :: p) rest.
Proof.
  intros Hb. induction block as [|y block IH]; [reflexivity|].
  change ((y :: block) ++ rest) with (y :: (block ++ rest)).
  cbn [str_in startswith].
  assert (Hy : (a =? y)%N = false)
    by (apply N.eqb_neq; intros ->; apply (Hb y); [left|]; reflexivity).
  rewrite Hy. cbn [andb orb]. apply IH. intros z Hz. apply Hb. right. exact Hz.
Qed.

Lemma startswith_lower (s : str) (p t : str) (i : nat) :
  Forall (fun x => In x keyword) p ->
  startswith p (lower_from E s i t) = startswith_ci p t.
Proof.
  revert t i. induction p as [|a p IH]; intros t i Hp.
  - destruct t; reflexivity.
  - apply Forall_cons in Hp as [Ha Hp].
    assert (Ha128 : (a < 128)%N)
      by (rewrite List.Forall_forall in keyword_ascii; auto).
    assert (Hal : ascii_lower a = a)
      by (rewrite List.Forall_forall in keyword_lower; auto).
    destruct t as [|c t]; [reflexivity|].
    cbn [lower_from startswith_ci]. unfold lower_char.
    destruct (c <? 128)%N eqn:Hc.
    + cbn [app startswith]. rewrite (IH t (S i) Hp), (same_letter_low a c Hal).
      reflexivity.
    + apply N.ltb_ge in Hc. destruct (respects s i c Hc) as [Hne Hnot].
      rewrite (same_letter_high a c Ha128 Hal Hc). cbn [andb].
      apply startswith_block; [exact Hne|].
      intros y Hy ->. exact (Hnot a Hy Ha).
Qed.

Lemma str_in_lower (s : str) (t : str) (i : nat) :
  str_in keyword (lower_from E s i t) = contains_ci keyword t.
Proof.
  assert (Hself : Forall (fun x => In x keyword) keyword)
    by (apply List.Forall_forall; auto).
  revert i. induction t as [|c t IH]; intros i.
  - cbn [lower_from str_in contains_ci].
    rewrite <- (startswith_lower s keyword [] i Hself). reflexivity.
  - cbn [contains_ci]. rewrite <- (startswith_lower s keyword (c :: t) i Hself).
    rewrite <- (IH (S i)). cbn [lower_from]. unfold lower_char.
    destruct (c <? 128)%N eqn:Hc.
    + reflexivity.
    + apply N.ltb_ge in Hc. destruct (respects s i c Hc) as [Hne Hnot].
      destruct keyword as [|a p] eqn:Hk; [contradiction|].
      assert (Hb : forall y, In y (lower_non_ascii E s i c) -> y <> a)
        by (intros y Hy ->; apply (Hnot a Hy); left; reflexivity).
      rewrite (str_in_block a p _ _ Hb), (startswith_block a p _ _ Hne Hb).
      reflexivity.
Qed.

Lemma str_lower_contains (t : str) :
  str_in keyword (str_lower E t) = contains_ci keyword t.
Proof. apply str_in_lower. Qed.

End Lower.

Lemma classify_impact_spec (E : env) (text : str) :
  lower_respects E (py "emergency") ->
  classify_impact E text =
    if contains_ci (py "emergency") text then py "High" else py "Moderate".
Proof.
  intros Hr. unfold classify_impact.
  rewrite (str_lower_contains E (py "emergency")); [reflexivity | | | | exact Hr].
  - repeat constructor.
  - repeat constructor.
  - discriminate.
Qed.

(** C1. Every scraped order carries one of two impact labels: "High" when
    its fetched full text contains "emergency" in any mix of upper and
    lower case, "Moderate" otherwise, and so also when the text is empty.
    [str.lower] is taken to do outside ASCII what Unicode has it do: the
    lower-case form of such a code point is not empty and has no letter of
    the keyword in it. *)
Theorem C1_impact_label (E : env) (summarizer : str -> result str)
    (fuel : nat) (s : state) (orders : list order) (s' : state) :
  lower_respects E (py "emergency") ->
  fetch_executive_orders E summarizer fuel s = Some (Ret orders, s') ->
  forall o : order,
    In o orders ->
    Impact o =
      (if contains_ci (py "emergency") (Full_Text o) then py "High" else py "Moderate") /\
    (Impact o = py "High" \/ Impact o = py "Moderate") /\
    (Full_Text o = [] -> Impact o = py "Moderate").
Proof.
  intros Hr H o Hin. unfold fetch_executive_orders in H.
  apply pages_loop_spec in H as (_ & new & -> & _ & Hok & _).
  cbn [app] in Hin. rewrite List.Forall_forall in Hok.
  destruct (Hok o Hin) as [_ Himp].
  rewrite Himp, (classify_impact_spec E (Full_Text o) Hr).
  split; [reflexivity|]. split.
  - destruct (contains_ci _ _); [left | right]; reflexivity.
  - intros ->. reflexivity.
Qed.

Lemma ex_env_lower_respects : lower_respects ex_env (py "emergency").
Proof.
  intros s i c Hc. cbn [lower_non_ascii ex_env]. split; [discriminate|].
  intros x [<-|[]] Hin.
  assert (Hlow : Forall (fun y => (y < 128)%N) (py "emergency"))
    by (repeat constructor).
  rewrite List.Forall_forall in Hlow. specialize (Hlow c Hin). cbn beta in Hlow. lia.
Qed.

Lemma C1_impact_label_witness :
  Impact ex_order1 = py "High" /\
  Impact ex_order2 = py "Moderate" /\
  Impact ex_order3 = py "Moderate".
Proof.
  assert (Hrun : fetch_executive_orders ex_env ex_summarizer 5 initial_state
                 = Some (Ret [ex_order1; ex_order2; ex_order3], ex_scraped))
    by (vm_cast_no_check
          (@eq_refl _ (Some (Ret [ex_order1; ex_order2; ex_order3], ex_scraped)))).
  pose proof (C1_impact_label ex_env ex_summarizer 5 initial_state
                [ex_order1; ex_order2; ex_order3] ex_scraped
                ex_env_lower_respects Hrun) as H.
  split; [|split].
  - exact (proj1 (H ex_order1 ltac:(left; reflexivity))).
  - exact (proj1 (H ex_order2 ltac:(right; left; reflexivity))).
  - exact (proj1 (H ex_order3 ltac:(right; right; left; reflexivity))).
Defined.

(** * Further properties of the scrape *)

(** ** What one stretch of the scrape does to the cache and the network *)

Section Walk.
Variable E : env.
Variable summarizer : str -> result str.

Lemma ordered_pairs_app {A} (R : A -> A -> Prop) (l1 l2 : list A) :
  ForallOrdPairs R l1 -> ForallOrdPairs R l2 ->
  (forall x y, In x l1 -> In y l2 -> R x y) ->
  ForallOrdPairs R (l1 ++ l2).
Proof.
  intros H1 H2 Hx. induction H1 as [|x l1 Hhead Htail IH]; [exact H2|].
  cbn [app]. constructor.
  - apply Forall_app; split; [exact Hhead|].
    apply List.Forall_forall. intros y Hy. apply Hx; [left; reflexivity | exact Hy].
  - apply IH. intros a b Ha Hb. apply Hx; [right; exact Ha | exact Hb].
Qed.

Lemma continues_refl (t : list event) : continues t t.
Proof. exists []. split; reflexivity. Qed.

Lemma continues_cons (e : event) (t t' : list event) :
  scrape_event e = true -> continues t t' -> continues t (e :: t').
Proof.
  intros He (evs & -> & Hevs). exists (e :: evs). split; [reflexivity|].
  cbn [forallb]. rewrite He, Hevs. reflexivity.
Qed.

Lemma continues_trans (t1 t2 t3 : list event) :
  continues t1 t2 -> continues t2 t3 -> continues t1 t3.
Proof.
  intros (e1 & -> & H1) (e2 & -> & H2). exists (e2 ++ e1).
  split; [apply app_assoc|]. rewrite forallb_app, H1, H2. reflexivity.
Qed.

Lemma continues_dataframe (t t' : list event) :
  continues t t' -> events_of is_dataframe t' = events_of is_dataframe t.
Proof.
  intros (evs & -> & Hevs). unfold events_of. rewrite List.filter_app.
  induction evs as [|e evs IH]; [reflexivity|].
  cbn [forallb] in Hevs. apply andb_prop in Hevs as [He Hevs].
  cbn [List.filter]. destruct e; try discriminate He; cbn [is_dataframe]; exact (IH Hevs).
Qed.

Lemma walked_refl (s : state) : walked E 0 s s [].
Proof.
  unfold walked. rewrite !Nat.add_0_r.
  split; [reflexivity|]. split; [lia|]. split; [lia|].
  split; [apply continues_refl|].
  split; [constructor|]. split; [constructor|]. split; [constructor|].
  intros Hs. split; [exact Hs | constructor].
Qed.

(** A step that only logs. *)
Lemma walked_write (s : state) (m : message) :
  walked E 0 s (mkState (order_text_cache s) (EvWrite m :: trace s)) [].
Proof.
  unfold walked. rewrite requests_made_write. destruct s as [c t].
  cbn [order_text_cache trace]. rewrite !Nat.add_0_r.
  split; [reflexivity|]. split; [lia|]. split; [lia|].
  split; [apply continues_cons; [reflexivity | apply continues_refl]|].
  split; [constructor|]. split; [constructor|]. split; [constructor|].
  intros Hs. split; [exact Hs | constructor].
Qed.

(** The request for a listing page. *)
Lemma walked_listed (page : nat) (s : state) : walked E 1 s (listed page s) [].
Proof.
  unfold walked, listed, requests_made, events_of.
  cbn [order_text_cache trace List.filter is_get is_dataframe List.length].
  split; [reflexivity|]. split; [lia|]. split; [lia|].
  split; [do 2 (apply continues_cons; [reflexivity|]); apply continues_refl|].
  split; [constructor|]. split; [constructor|]. split; [constructor|].
  intros Hs. split; [exact Hs | constructor].
Qed.

Lemma walked_trans (p1 p2 : nat) (s1 s2 s3 : state) (a b : list order) :
  walked E p1 s1 s2 a -> walked E p2 s2 s3 b -> walked E (p1 + p2) s1 s3 (a ++ b).
Proof.
  intros (Hc1 & Hlo1 & Hhi1 & Hd1 & Ht1 & Hf1 & Hp1 & Hs1)
         (Hc2 & Hlo2 & Hhi2 & Hd2 & Ht2 & Hf2 & Hp2 & Hs2).
  unfold walked. rewrite length_app.
  split; [etransitivity; eassumption|]. split; [lia|]. split; [lia|].
  split; [exact (continues_trans _ _ _ Hd1 Hd2)|]. split; [|split; [|split]].
  - apply Forall_app; split; [|exact Ht2].
    eapply Forall_impl; [exact Ht1|]. intros o Ho Hne.
    eapply lookup_weaken; [apply Ho; exact Hne | exact Hc2].
  - apply Forall_app; split; [exact Hf1|].
    eapply Forall_impl; [exact Hf2|]. intros o Ho text Hl.
    apply Ho. eapply lookup_weaken; [exact Hl | exact Hc1].
  - apply ordered_pairs_app; [exact Hp1 | exact Hp2 |].
    intros x y Hx Hy Hlink Hne.
    rewrite List.Forall_forall in Ht1, Hf2.
    apply (Hf2 y Hy). rewrite <- Hlink. apply (Ht1 x Hx Hne).
  - intros Hsound. destruct (Hs1 Hsound) as [Hsound2 Ha].
    destruct (Hs2 Hsound2) as [Hsound3 Hb].
    split; [exact Hsound3 | apply Forall_app; split; assumption].
Qed.

Lemma fetch_order_text_walk (url : str) (s : state) :
  exists (text : str) (s' : state),
    fetch_order_text E url s = (Ret text, s') /\
    order_text_cache s ⊆ order_text_cache s' /\
    requests_made s <= requests_made s' <= requests_made s + 1 /\
    continues (trace s) (trace s') /\
    (text <> [] -> order_text_cache s' !! url = Some text) /\
    (forall t, order_text_cache s !! url = Some t -> text = t) /\
    (cache_sound E s -> cache_sound E s' /\ (text = [] \/ served E url text)).
Proof.
  destruct (order_text_cache s !! url) as [cached|] eqn:Hc.
  - rewrite (fetch_order_text_hit E url cached s Hc).
    exists cached. eexists. split; [reflexivity|].
    rewrite requests_made_write. cbn [order_text_cache trace].
    destruct s as [c t]; cbn [order_text_cache trace] in *.
    split; [reflexivity|]. split; [lia|].
    split; [apply continues_cons; [reflexivity | apply continues_refl]|].
    split; [intros _; exact Hc|]. split; [intros t0 Ht0; congruence|].
    intros Hsound. split; [exact Hsound | right; exact (Hsound url cached Hc)].
  - rewrite (fetch_order_text_miss E url s Hc).
    assert (Hfail : forall m,
      exists (text : str) (s' : state),
        (Ret [], mkState (order_text_cache s) (EvWrite m :: requested url s))
          = (Ret text, s') /\
        order_text_cache s ⊆ order_text_cache s' /\
        requests_made s <= requests_made s' <= requests_made s + 1 /\
        continues (trace s) (trace s') /\
        (text <> [] -> order_text_cache s' !! url = Some text) /\
        (forall t : str, @None str = Some t -> text = t) /\
        (cache_sound E s -> cache_sound E s' /\ (text = [] \/ served E url text))).
    { intros m. exists []. eexists. split; [reflexivity|].
      unfold requests_made, requested, events_of.
      cbn [order_text_cache trace List.filter is_get is_dataframe List.length].
      split; [reflexivity|]. split; [lia|].
      split; [do 3 (apply continues_cons; [reflexivity|]); apply continues_refl|].
      split; [intros H; contradiction|]. split; [intros t0 Ht0; congruence|].
      intros Hsound. split; [exact Hsound | left; reflexivity]. }
    destruct (requests_get E (requests_made s) url) as [e|st [sp|e]] eqn:Hr;
      [apply Hfail| |].
    + destruct (st =? 200)%Z eqn:Hst; cbn [negb]; [|apply Hfail].
      apply Z.eqb_eq in Hst. subst st.
      exists (extract_order_text sp). eexists. split; [reflexivity|].
      unfold requests_made, requested, events_of.
      cbn [order_text_cache trace List.filter is_get is_dataframe List.length].
      split; [by apply insert_subseteq|]. split; [lia|].
      split; [do 2 (apply continues_cons; [reflexivity|]); apply continues_refl|].
      split; [intros _; apply lookup_insert_eq|].
      split; [intros t0 Ht0; congruence|].
      intros Hsound. split.
      * intros u t0 Hl. cbn [order_text_cache] in Hl.
        destruct (decide (url = u)) as [<-|Hne].
        -- rewrite lookup_insert_eq in Hl. injection Hl as <-.
           exists (requests_made s), sp. split; [exact Hr | reflexivity].
        -- rewrite lookup_insert_ne in Hl by exact Hne. exact (Hsound u t0 Hl).
      * right. exists (requests_made s), sp. split; [exact Hr | reflexivity].
    + destruct (negb (st =? 200)%Z); apply Hfail.
Qed.

Lemma process_order_walked (title link : str) (d : date)
    (page_orders : list order) (s : state) :
  exists (o : order) (s' : state),
    process_order E summarizer title link d page_orders s
      = (Ret (page_orders ++ [o]), s') /\
    order_fields o = (d, title, link) /\
    walked E 0 s s' [o].
Proof.
  destruct (process_order_spec E summarizer title link d page_orders s)
    as (text & s1 & s' & Hf & Hp & Hc & Ht).
  set (sw := mkState (order_text_cache s) (EvWrite (MsgProcessing title d) :: trace s)) in *.
  destruct (fetch_order_text_walk link sw)
    as (text' & s1' & Hf' & Hsub & Hreq & Hdf & Hin & Hfol & Hsound).
  rewrite Hf in Hf'. injection Hf' as <- <-.
  eexists; exists s'. split; [exact Hp|]. split; [reflexivity|].
  assert (Hreq' : requests_made s' = requests_made s1).
  { unfold requests_made, events_of. rewrite Ht, List.filter_app.
    destruct text as [|c text]; cbn [str_is_empty]; [reflexivity|].
    destruct (summarizer (c :: text)); reflexivity. }
  assert (Hdf' : continues (trace s) (trace s')).
  { apply (continues_trans _ (trace sw));
      [apply continues_cons; [reflexivity | apply continues_refl]|].
    apply (continues_trans _ (trace s1)); [exact Hdf|]. rewrite Ht.
    destruct text as [|c text]; cbn [str_is_empty]; [apply continues_refl|].
    destruct (summarizer (c :: text));
      repeat (apply continues_cons; [reflexivity|]); apply continues_refl. }
  assert (Hsw : requests_made sw = requests_made s) by apply requests_made_write.
  unfold walked, text_cached, follows_cache.
  rewrite Hc, Hreq'. cbn [List.length Full_Text Link].
  split; [exact Hsub|]. split; [lia|]. split; [lia|]. split; [exact Hdf'|].
  split; [constructor; [exact Hin | constructor]|].
  split; [constructor; [exact Hfol | constructor]|].
  split; [constructor; constructor|].
  intros Hs. destruct (Hsound Hs) as [Hs1 Hserved].
  split; [|constructor; [exact Hserved | constructor]].
  intros u t Hl. apply Hs1. rewrite <- Hc. exact Hl.
Qed.

Lemma process_item_walked (it : item) (page_orders : list order) (s : state) :
  exists (new : list order) (s' : state),
    process_item E summarizer it page_orders s = (Ret (page_orders ++ new), s') /\
    List.map order_fields new = option_list (item_fields E it) /\
    walked E 0 s s' new.
Proof.
  unfold process_item, item_fields.
  assert (Hskip : forall m,
    exists (new : list order) (s' : state),
      (st_write m ;; ret page_orders) s = (Ret (page_orders ++ new), s') /\
      List.map order_fields new = option_list None /\
      walked E 0 s s' new).
  { intros m. exists [], (mkState (order_text_cache s) (EvWrite m :: trace s)).
    rewrite app_nil_r. split; [reflexivity|]. split; [reflexivity|].
    apply walked_write. }
  destruct (item_find_h2 it) as [[[a|]]|]; try apply Hskip.
  destruct (item_find_time it) as [[[datetime|]]|]; try apply Hskip.
  destruct (fromisoformat E datetime) as [d|e]; try apply Hskip.
  destruct (process_order_walked (a_get_text a) (a_href a) d page_orders s)
    as (o & s' & Hp & Hfields & Hw).
  exists [o], s'. split; [exact Hp|]. split; [|exact Hw].
  cbn [List.map option_list]. rewrite Hfields. reflexivity.
Qed.

Lemma items_loop_walked (items : list item) (page_orders : list order) (s : state) :
  exists (new : list order) (s' : state),
    items_loop E summarizer items page_orders s = (Ret (page_orders ++ new), s') /\
    List.map order_fields new = omap (item_fields E) items /\
    walked E 0 s s' new.
Proof.
  revert page_orders s. induction items as [|it rest IH]; intros page_orders s.
  - exists [], s. rewrite app_nil_r. split; [reflexivity|].
    split; [reflexivity | apply walked_refl].
  - destruct (process_item_walked it page_orders s) as (n1 & s1 & Hp & Hf1 & Hw1).
    destruct (IH (page_orders ++ n1) s1) as (n2 & s2 & Hl & Hf2 & Hw2).
    exists (n1 ++ n2), s2. split; [|split].
    + cbn [items_loop]. unfold bind. rewrite Hp, Hl, app_assoc. reflexivity.
    + rewrite List.map_app, Hf1, Hf2. cbn [omap list_omap].
      destruct (item_fields E it); reflexivity.
    + apply (walked_trans 0 0 s s1 s2 n1 n2 Hw1 Hw2).
Qed.

End Walk.

(** ** Pages *)

Section Pages.
Variable E : env.
Variable summarizer : str -> result str.

(** The body of the loop, once the response for the listing page is known. *)
Lemma page_body_unfold (page : nat) (s : state) :
  page_body E summarizer page s =
    match requests_get E (requests_made s) (page_url page) with
    | GetRaises e => (Raise e, listed page s)
    | Response status_code content =>
        if negb (status_code =? 200)%Z then
          (Ret None,
           mkState (order_text_cache s)
                   (EvWrite (MsgFailedPage (page_url page) status_code)
                    :: trace (listed page s)))
        else
          match content with
          | Raise e => (Raise e, listed page s)
          | Ret sp =>
              match soup_select_items sp with
              | [] => (Ret None,
                       mkState (order_text_cache s)
                               (EvWrite (MsgNoItems page) :: trace (listed page s)))
              | items =>
                  match items_loop E summarizer items [] (listed page s) with
                  | (Ret [], s') =>
                      (Ret None,
                       mkState (order_text_cache s') (EvWrite (MsgNoOrders page) :: trace s'))
                  | (Ret page_orders, s') => (Ret (Some page_orders), s')
                  | (Raise e, s') => (Raise e, s')
                  end
              end
          end
    end.
Proof.
  unfold page_body, bind, st_write, emit, http_get, listed.
  cbn [fst snd order_text_cache trace]. rewrite requests_made_write.
  destruct s as [c t]; cbn [order_text_cache trace].
  destruct (requests_get E (requests_made (mkState c t)) (page_url page))
    as [e|st [sp|e]]; [reflexivity| |].
  - destruct (negb (st =? 200)%Z); [reflexivity|].
    destruct (soup_select_items sp) as [|it items]; [reflexivity|].
    destruct (items_loop E summarizer (it :: items) [] _) as [[[|o po]|e] s'];
      reflexivity.
  - destruct (negb (st =? 200)%Z); reflexivity.
Qed.

Lemma page_body_walked (page : nat) (s : state) :
  match page_body E summarizer page s with
  | (Ret None, s') => walked E 1 s s' []
  | (Ret (Some new), s') => new <> [] /\ walked E 1 s s' new
  | (Raise e, s') => walked E 1 s s' []
  end.
Proof.
  rewrite page_body_unfold.
  pose proof (walked_listed E page s) as Hl.
  assert (Hlw : forall m,
    walked E 1 s (mkState (order_text_cache s) (EvWrite m :: trace (listed page s))) []).
  { intros m.
    apply (walked_trans E 1 0 s (listed page s) _ [] [] Hl (walked_write E (listed page s) m)). }
  destruct (requests_get E (requests_made s) (page_url page)) as [e|st [sp|e]];
    [exact Hl| |].
  - destruct (negb (st =? 200)%Z); [apply Hlw|].
    destruct (soup_select_items sp) as [|it items]; [apply Hlw|].
    destruct (items_loop_walked E summarizer (it :: items) [] (listed page s))
      as (new & s' & Heq & _ & Hw).
    rewrite Heq. cbn [app].
    pose proof (walked_trans E 1 0 s (listed page s) s' [] new Hl Hw) as Hw'.
    cbn [app] in Hw'. destruct new as [|o new].
    + apply (walked_trans E 1 0 s s' _ [] [] Hw' (walked_write E s' (MsgNoOrders page))).
    + split; [discriminate | exact Hw'].
  - destruct (negb (st =? 200)%Z); [apply Hlw | exact Hl].
Qed.

(** The whole loop: the listing pages asked for are at most one more than
    the orders recorded, since every page but the last recorded one. *)
Lemma pages_loop_walked (fuel page : nat) (orders : list order) (s : state)
    (r : result (list order)) (s' : state) :
  pages_loop E summarizer fuel page orders s = Some (r, s') ->
  exists (pages : nat) (new : list order),
    walked E pages s s' new /\
    1 <= pages <= List.length new + 1 /\
    match r with Ret all => all = orders ++ new | Raise _ => True end.
Proof.
  revert page orders s. induction fuel as [|fuel IH]; intros page orders s H.
  - discriminate.
  - cbn [pages_loop] in H. pose proof (page_body_walked page s) as Hb.
    destruct (page_body E summarizer page s) as [[[po|]|e] s1].
    + destruct Hb as [Hne Hw1]. apply IH in H as (pages & new & Hw2 & Hp & Hr).
      exists (1 + pages), (po ++ new). split; [|split].
      * apply (walked_trans E 1 pages s s1 s' po new Hw1 Hw2).
      * rewrite length_app. destruct po; [contradiction|]. cbn [List.length]. lia.
      * destruct r; [|exact I]. rewrite Hr, app_assoc. reflexivity.
    + injection H as <- <-. exists 1, []. rewrite app_nil_r. cbn [List.length].
      split; [exact Hb|]. split; [lia | reflexivity].
    + injection H as <- <-. exists 1, []. cbn [List.length].
      split; [exact Hb|]. split; [lia | exact I].
Qed.

End Pages.

(** ** Orders and items *)

Lemma item_lacks_fields (E : env) (it : item) :
  item_lacks E it = false <-> is_Some (item_fields E it).
Proof.
  unfold item_lacks, item_fields.
  destruct (item_find_h2 it) as [[[a|]]|]; cbn [h2_find_a];
    try (split; [discriminate | intros [x Hx]; discriminate]).
  destruct (item_find_time it) as [[[datetime|]]|]; cbn [time_datetime];
    try (split; [discriminate | intros [x Hx]; discriminate]).
  destruct (fromisoformat E datetime);
    [split; eauto | split; [discriminate | intros [x Hx]; discriminate]].
Qed.

Lemma omap_item_fields_length (E : env) (items : list item) :
  List.length (omap (item_fields E) items) =
  List.length (List.filter (fun it => negb (item_lacks E it)) items).
Proof.
  induction items as [|it rest IH]; [reflexivity|].
  cbn [omap list_omap List.filter].
  destruct (item_fields E it) as [f|] eqn:Hf.
  - assert (Hl : item_lacks E it = false) by (apply item_lacks_fields; eauto).
    rewrite Hl. cbn [negb List.length]. fold (omap (item_fields E) rest).
    rewrite IH. reflexivity.
  - assert (Hl : item_lacks E it = true).
    { destruct (item_lacks E it) eqn:Hl; [reflexivity|].
      apply item_lacks_fields in Hl as [x Hx]. congruence. }
    rewrite Hl. cbn [negb]. exact IH.
Qed.

Lemma items_loop_count (E : env) (summarizer : str -> result str)
    (items : list item) (page_orders : list order) (s : state) :
  exists (new : list order) (s' : state),
    items_loop E summarizer items page_orders s = (Ret (page_orders ++ new), s') /\
    List.length new = List.length (List.filter (fun it => negb (item_lacks E it)) items).
Proof.
  destruct (items_loop_walked E summarizer items page_orders s)
    as (new & s' & Heq & Hf & _).
  exists new, s'. split; [exact Heq|].
  rewrite <- omap_item_fields_length, <- Hf, length_map. reflexivity.
Qed.

(** X1. The loop over the items of a page appends one order for each item
    that lacks nothing, and none for the others, in the order of the page;
    the order takes its date from the item's <time>, its title from the
    text of the link and its link from the href. *)
Theorem X1_orders_follow_items (E : env) (summarizer : str -> result str)
    (items : list item) (page_orders : list order) (s : state) :
  exists (new : list order) (s' : state),
    items_loop E summarizer items page_orders s = (Ret (page_orders ++ new), s') /\
    List.map order_fields new = omap (item_fields E) items /\
    List.length new = List.length (List.filter (fun it => negb (item_lacks E it)) items).
Proof.
  destruct (items_loop_walked E summarizer items page_orders s)
    as (new & s' & Heq & Hf & _).
  exists new, s'. split; [exact Heq|]. split; [exact Hf|].
  rewrite <- omap_item_fields_length, <- Hf, length_map. reflexivity.
Qed.

(** ** Where the texts come from *)

Lemma ordered_pairs_lookup {A} (R : A -> A -> Prop) (l : list A) (i j : nat) (x y : A) :
  ForallOrdPairs R l -> i < j -> l !! i = Some x -> l !! j = Some y -> R x y.
Proof.
  intros H. revert i j. induction H as [|a l Hhead _ IH]; intros i j Hij Hi Hj.
  - discriminate.
  - destruct j as [|j]; [lia|]. destruct i as [|i].
    + injection Hi as <-. rewrite List.Forall_forall in Hhead. apply Hhead.
      apply list_elem_of_In. eapply list_elem_of_lookup_2. exact Hj.
    + apply (IH i j); [lia | exact Hi | exact Hj].
Qed.

Lemma scrape_walked (E : env) (summarizer : str -> result str) (fuel : nat)
    (s : state) (r : result (list order)) (s' : state) :
  fetch_executive_orders E summarizer fuel s = Some (r, s') ->
  exists (pages : nat) (new : list order),
    walked E pages s s' new /\
    1 <= pages <= List.length new + 1 /\
    match r with Ret all => all = new | Raise _ => True end.
Proof.
  intros H. unfold fetch_executive_orders in H.
  apply pages_loop_walked in H as (pages & new & Hw & Hp & Hr). eauto.
Qed.

Lemma initial_cache_sound (E : env) : cache_sound E initial_state.
Proof. intros url text H. cbn in H. rewrite lookup_empty in H. discriminate. Qed.

(** X2. When the cache holds only texts the site served with status 200
    for their keys, as the empty cache does, it still does after the
    scrape, and the Full Text of every recorded order is either empty or
    the text extracted from a page the site served with status 200 for
    the link of the order. *)
Theorem X2_full_text_served (E : env) (summarizer : str -> result str)
    (fuel : nat) (s : state) (orders : list order) (s' : state) :
  cache_sound E s ->
  fetch_executive_orders E summarizer fuel s = Some (Ret orders, s') ->
  cache_sound E s' /\
  forall o : order,
    In o orders -> Full_Text o = [] \/ served E (Link o) (Full_Text o).
Proof.
  intros Hs H. apply scrape_walked in H as (pages & new & Hw & _ & ->).
  destruct Hw as (_ & _ & _ & _ & _ & _ & _ & Hsound).
  destruct (Hsound Hs) as [Hs' Hall]. split; [exact Hs'|].
  rewrite List.Forall_forall in Hall. exact Hall.
Qed.

Lemma X2_full_text_served_witness :
  cache_sound ex_env ex_scraped /\
  (Full_Text ex_order1 = [] \/ served ex_env (Link ex_order1) (Full_Text ex_order1)).
Proof.
  assert (Hrun : fetch_executive_orders ex_env ex_summarizer 5 initial_state
                 = Some (Ret [ex_order1; ex_order2; ex_order3], ex_scraped))
    by (vm_cast_no_check
          (@eq_refl _ (Some (Ret [ex_order1; ex_order2; ex_order3], ex_scraped)))).
  destruct (X2_full_text_served ex_env ex_summarizer 5 initial_state
              [ex_order1; ex_order2; ex_order3] ex_scraped
              (initial_cache_sound ex_env) Hrun) as [Hsound Hall].
  split; [exact Hsound|]. apply Hall. left. reflexivity.
Defined.

(** X3. Within one scrape, an order that has the same link as an earlier
    order whose text is not empty has that same text: the second text
    comes from the cache, whatever the site would answer by then. *)
Theorem X3_same_link_same_text (E : env) (summarizer : str -> result str)
    (fuel : nat) (s : state) (orders : list order) (s' : state) :
  fetch_executive_orders E summarizer fuel s = Some (Ret orders, s') ->
  forall (i j : nat) (o1 o2 : order),
    i < j -> orders !! i = Some o1 -> orders !! j = Some o2 ->
    Link o1 = Link o2 -> Full_Text o1 <> [] ->
    Full_Text o2 = Full_Text o1.
Proof.
  intros H i j o1 o2 Hij Hi Hj Hlink Hne.
  apply scrape_walked in H as (pages & new & Hw & _ & ->).
  destruct Hw as (_ & _ & _ & _ & _ & _ & Hpairs & _).
  exact (ordered_pairs_lookup repeats_text new i j o1 o2 Hpairs Hij Hi Hj Hlink Hne).
Qed.

Lemma X3_same_link_same_text_witness :
  fetch_executive_orders ex_twice_env ex_summarizer 5 initial_state
    = Some (Ret [ex_order1; ex_order2; ex_order3; ex_order1; ex_order2; ex_order3],
            ex_twice_scraped) /\
  requests_get ex_twice_env 5 ex_link1 = Response 200 (Ret ex_detail3) /\
  Full_Text ex_order1 = Full_Text ex_order1.
Proof.
  assert (Hrun : fetch_executive_orders ex_twice_env ex_summarizer 5 initial_state
                 = Some (Ret [ex_order1; ex_order2; ex_order3;
                              ex_order1; ex_order2; ex_order3], ex_twice_scraped))
    by (vm_cast_no_check
          (@eq_refl _ (Some (Ret [ex_order1; ex_order2; ex_order3;
                                  ex_order1; ex_order2; ex_order3], ex_twice_scraped)))).
  split; [exact Hrun|]. split; [vm_compute; reflexivity|].
  apply (X3_same_link_same_text ex_twice_env ex_summarizer 5 initial_state _ _ Hrun
           0 3 ex_order1 ex_order1); [lia | reflexivity | reflexivity | reflexivity |].
  discriminate.
Defined.

(** X4. A scrape that records n orders sends at least one and at most
    2n + 1 requests: one for each listing page, of which all but the last
    recorded an order, and at most one for each order. *)
Theorem X4_request_bound (E : env) (summarizer : str -> result str)
    (fuel : nat) (s : state) (orders : list order) (s' : state) :
  fetch_executive_orders E summarizer fuel s = Some (Ret orders, s') ->
  requests_made s < requests_made s' /\
  requests_made s' <= requests_made s + 2 * List.length orders + 1.
Proof.
  intros H. apply scrape_walked in H as (pages & new & Hw & Hp & ->).
  destruct Hw as (_ & Hlo & Hhi & _). lia.
Qed.

Lemma X4_request_bound_witness :
  requests_made initial_state < requests_made ex_scraped /\
  requests_made ex_scraped <= requests_made initial_state + 2 * 3 + 1.
Proof.
  assert (Hrun : fetch_executive_orders ex_env ex_summarizer 5 initial_state
                 = Some (Ret [ex_order1; ex_order2; ex_order3], ex_scraped))
    by (vm_cast_no_check
          (@eq_refl _ (Some (Ret [ex_order1; ex_order2; ex_order3], ex_scraped)))).
  exact (X4_request_bound ex_env ex_summarizer 5 initial_state
           [ex_order1; ex_order2; ex_order3] ex_scraped Hrun).
Defined.

(** X5. When [main] ends with an exception it has rendered no table, and
    the exception is either that of loading the model, raised before any
    request was sent, or that of a listing request or of the parse of a
    listing page; the orders scraped until then are not shown. *)
Theorem X5_main_raises (E : env) (fuel : nat) (s : state) (e : exn) (s' : state) :
  main E fuel s = Some (Raise e, s') ->
  events_of is_dataframe (trace s') = events_of is_dataframe (trace s) /\
  ((pipeline E = Raise e /\ s' = ready s) \/
   (exists n page : nat, listing_raises E n page e)).
Proof.
  rewrite main_unfold. destruct (pipeline E) as [summarizer|e0] eqn:Hp.
  - destruct (fetch_executive_orders E summarizer fuel (ready s))
      as [[[orders|e1] s2]|] eqn:Hrun; [|intros H|discriminate].
    + rewrite render_spec. discriminate.
    + injection H as <- <-. split.
      * apply scrape_walked in Hrun as (pages & new & Hw & _).
        destruct Hw as (_ & _ & _ & Hdf & _).
        rewrite (continues_dataframe _ _ Hdf). reflexivity.
      * right. unfold fetch_executive_orders in Hrun.
        apply pages_loop_spec in Hrun. apply Hrun.
  - intros H. injection H as <- <-. split; [reflexivity|]. left. auto.
Qed.

Lemma X5_main_raises_witness :
  events_of is_dataframe (trace (ready initial_state)) = [] /\
  ((pipeline ex_no_model_env = Raise (py "model not found") /\
    ready initial_state = ready initial_state) \/
   (exists n page : nat, listing_raises ex_no_model_env n page (py "model not found"))).
Proof.
  apply (X5_main_raises ex_no_model_env 0 initial_state (py "model not found")
           (ready initial_state)).
  reflexivity.
Defined.

(** ** When the loop ends *)

(** X6. The loop over the pages ends, by a break or by an exception,
    within k + 1 turns when the site answers the request for the k-th page
    after the current one with a status other than 200, whenever that
    request is made. *)
Theorem X6_pages_loop_ends (E : env) (summarizer : str -> result str)
    (k page : nat) (orders : list order) (s : state) :
  (forall n : nat, exists (status : Z) (content : result soup),
      requests_get E n (page_url (page + k)) = Response status content /\
      status <> 200%Z) ->
  exists (r : result (list order)) (s' : state),
    pages_loop E summarizer (S k) page orders s = Some (r, s').
Proof.
  revert page orders s. induction k as [|k IH]; intros page orders s Hfail.
  - destruct (Hfail (requests_made s)) as (status & content & Hr & Hst).
    rewrite Nat.add_0_r in Hr. cbn [pages_loop].
    rewrite (page_body_failed E summarizer page s status content Hr Hst). eauto.
  - cbn [pages_loop].
    destruct (page_body E summarizer page s) as [[[po|]|e] s1]; [|eauto|eauto].
    apply IH. intros n. replace (S page + k) with (page + S k) by lia. apply Hfail.
Qed.

Lemma X6_pages_loop_ends_witness :
  exists (r : result (list order)) (s' : state),
    pages_loop ex_env ex_summarizer 2 1 [] initial_state = Some (r, s').
Proof.
  apply (X6_pages_loop_ends ex_env ex_summarizer 1 1 [] initial_state).
  intros n. exists 404%Z, (Ret ex_not_found). split; [reflexivity | discriminate].
Defined.

(** X7. The loop has no page limit of its own: on a site that answers the
    request for every listing page with status 200 and a page that holds
    an item lacking nothing, it is still running after any number of
    turns. *)
Theorem X7_pages_loop_endless (E : env) (summarizer : str -> result str) :
  (forall n page : nat, exists (sp : soup) (it : item),
      requests_get E n (page_url page) = Response 200 (Ret sp) /\
      In it (soup_select_items sp) /\ item_lacks E it = false) ->
  forall (fuel page : nat) (orders : list order) (s : state),
    pages_loop E summarizer fuel page orders s = None.
Proof.
  intros Hsite fuel. induction fuel as [|fuel IH]; intros page orders s.
  - reflexivity.
  - cbn [pages_loop]. rewrite page_body_unfold.
    destruct (Hsite (requests_made s) page) as (sp & it & Hr & Hin & Hok).
    rewrite Hr. cbn [Z.eqb Pos.eqb negb].
    destruct (soup_select_items sp) as [|it0 items] eqn:Hitems; [destruct Hin|].
    destruct (items_loop_count E summarizer (it0 :: items) [] (listed page s))
      as (new & s' & Heq & Hlen).
    rewrite Heq. cbn [app].
    destruct new as [|o new]; [|apply IH].
    exfalso. cbn [List.length] in Hlen.
    assert (Hmem : In it (List.filter (fun it => negb (item_lacks E it)) (it0 :: items)))
      by (apply filter_In; split; [exact Hin | rewrite Hok; reflexivity]).
    destruct (List.filter _ (it0 :: items)); [destruct Hmem | discriminate].
Qed.

Lemma X7_pages_loop_endless_witness :
  pages_loop ex_endless_env ex_summarizer 4 1 [] initial_state = None.
Proof.
  apply (X7_pages_loop_endless ex_endless_env ex_summarizer).
  intros n page. exists ex_listing.
  exists (mkItem (Some (mkH2 (Some (mkA (py "Order One") ex_link1))))
                 (Some (mkTime (Some (py "2025-02-03T10:00:00-05:00"))))).
  split; [reflexivity|]. split; [left; reflexivity | vm_compute; reflexivity].
Defined.

(** ** The date filter, again *)

Lemma date_ge_trans (a b c : date) :
  date_ge a b = true -> date_ge b c = true -> date_ge a c = true.
Proof. rewrite !date_ge_spec. lia. Qed.

Lemma shown_rows_sublist (d1 d2 : date) (orders : list order) (i : nat) :
  date_ge d2 d1 = true ->
  sublist (shown_rows d2 i orders) (shown_rows d1 i orders).
Proof.
  intros Hd. revert i. induction orders as [|o rest IH]; intros i.
  - constructor.
  - cbn [shown_rows]. destruct (date_ge (Date o) d2) eqn:H2.
    + rewrite (date_ge_trans _ _ _ H2 Hd). apply sublist_skip, IH.
    + destruct (date_ge (Date o) d1); [apply sublist_cons, IH | apply IH].
Qed.

(** X8. Choosing a later day in the date input never adds a row: for the
    same orders, the rows of the table rendered for the later day are,
    in the same order, among the rows rendered for the earlier day. *)
Theorem X8_later_day_fewer_rows (E1 E2 : env) (orders : list order) (s : state) :
  orders <> [] ->
  date_ge (date_input E2) (date_input E1) = true ->
  exists (rows1 rows2 : list (nat * list cell)) (s1 s2 : state),
    render E1 orders s = (Ret tt, s1) /\
    render E2 orders s = (Ret tt, s2) /\
    events_of is_dataframe (trace s1) =
      EvDataframe (mkDF displayed_columns rows1) :: events_of is_dataframe (trace s) /\
    events_of is_dataframe (trace s2) =
      EvDataframe (mkDF displayed_columns rows2) :: events_of is_dataframe (trace s) /\
    sublist rows2 rows1.
Proof.
  intros Hne Hd. rewrite !render_spec.
  exists (shown_rows (date_input E1) 0 orders), (shown_rows (date_input E2) 0 orders).
  do 2 eexists. split; [reflexivity|]. split; [reflexivity|].
  cbn [trace]. unfold events_of. rewrite !List.filter_app.
  destruct orders as [|o rest]; [contradiction|]. cbn [render_events List.filter is_dataframe app].
  split; [reflexivity|]. split; [reflexivity|].
  apply shown_rows_sublist. exact Hd.
Qed.

Lemma X8_later_day_fewer_rows_witness :
  exists (rows1 rows2 : list (nat * list cell)) (s1 s2 : state),
    render ex_env [ex_order1; ex_order2; ex_order3] initial_state = (Ret tt, s1) /\
    render ex_later_env [ex_order1; ex_order2; ex_order3] initial_state = (Ret tt, s2) /\
    events_of is_dataframe (trace s1) = [EvDataframe (mkDF displayed_columns rows1)] /\
    events_of is_dataframe (trace s2) = [EvDataframe (mkDF displayed_columns rows2)] /\
    sublist rows2 rows1.
Proof.
  apply (X8_later_day_fewer_rows ex_env ex_later_env
           [ex_order1; ex_order2; ex_order3] initial_state).
  - discriminate.
  - reflexivity.
Defined.

(** ** Addresses of the listing pages *)

Lemma py_inj (a b : string) : py a = py b -> a = b.
Proof.
  unfold py. intros H.
  rewrite <- (string_of_list_ascii_of_string a), <- (string_of_list_ascii_of_string b).
  f_equal. revert H. generalize (list_ascii_of_string a) (list_ascii_of_string b).
  intros la. induction la as [|x la IH]; intros [|y lb] H; try discriminate.
  - reflexivity.
  - cbn [List.map] in H. injection H as Hxy Hrest. f_equal.
    + rewrite <- (ascii_N_embedding x), <- (ascii_N_embedding y), Hxy. reflexivity.
    + apply IH. exact Hrest.
Qed.

Lemma append_cancel_l (p x y : string) : (p ++ x = p ++ y)%string -> x = y.
Proof.
  induction p as [|c p IH]; cbn; intros H; [exact H|].
  injection H as H. apply IH. exact H.
Qed.

Lemma list_ascii_of_string_append (x y : string) :
  list_ascii_of_string (x ++ y) = list_ascii_of_string x ++ list_ascii_of_string y.
Proof.
  induction x as [|c x IH]; [reflexivity|].
  change (c :: list_ascii_of_string (x ++ y)
          = c :: (list_ascii_of_string x ++ list_ascii_of_string y)).
  rewrite IH. reflexivity.
Qed.

Lemma append_cancel_r (x y z : string) : (x ++ z = y ++ z)%string -> x = y.
Proof.
  intros H. apply (f_equal list_ascii_of_string) in H.
  rewrite !list_ascii_of_string_append in H. apply app_inv_tail in H.
  rewrite <- (string_of_list_ascii_of_string x), <- (string_of_list_ascii_of_string y), H.
  reflexivity.
Qed.

Lemma to_uint_not_nil (n : nat) : Nat.to_uint n <> Decimal.Nil.
Proof.
  intros H. pose proof (DecimalNat.Unsigned.of_to n) as Hn. rewrite H in Hn.
  cbn in Hn. subst n. discriminate H.
Qed.

Lemma str_of_nat_inj (a b : nat) : str_of_nat a = str_of_nat b -> a = b.
Proof.
  unfold str_of_nat. intros H. apply (f_equal NilZero.uint_of_string) in H.
  rewrite !NilZero.usu in H by apply to_uint_not_nil.
  injection H as H. apply DecimalNat.Unsigned.to_uint_inj. exact H.
Qed.

(** X9. Different page numbers have different listing addresses, the
    first page, which has an address of its own form, included. *)
Theorem X9_page_url_inj (a b : nat) : page_url a = page_url b -> a = b.
Proof.
  unfold page_url. intros H.
  destruct (a =? 1) eqn:Ha; destruct (b =? 1) eqn:Hb.
  - apply Nat.eqb_eq in Ha, Hb. congruence.
  - apply py_inj, append_cancel_l in H. cbn in H. discriminate H.
  - apply py_inj, append_cancel_l in H. cbn in H. discriminate H.
  - apply py_inj, append_cancel_l, append_cancel_l, append_cancel_r in H.
    apply str_of_nat_inj. exact H.
Qed.

Lemma X9_page_url_inj_witness : 2 = 2.
Proof. apply (X9_page_url_inj 2 2). reflexivity. Defined.

(** ** Empty texts and empty listings *)

(** X10. A call of [fetch_order_text] that finds nothing in the cache
    returns the empty string only when the fetch failed or when the page
    it was served has no text at all. *)
Theorem X10_empty_text_cause (E : env) (url : str) (s : state) :
  order_text_cache s !! url = None ->
  fst (fetch_order_text E url s) = Ret [] ->
  fetch_fails (requests_get E (requests_made s) url) = true \/
  exists sp : soup,
    requests_get E (requests_made s) url = Response 200 (Ret sp) /\
    soup_get_text sp = [].
Proof.
  intros Hmiss. rewrite (fetch_order_text_miss E url s Hmiss).
  destruct (requests_get E (requests_made s) url) as [e|st [sp|e]]; cbn [fetch_fails].
  - auto.
  - destruct (st =? 200)%Z eqn:Hst; cbn [negb orb fst]; [|auto].
    intros H. injection H as H. right. apply Z.eqb_eq in Hst. subst st.
    exists sp. split; [reflexivity|].
    destruct (extract_order_text_length sp) as [Hw|Hlen].
    + rewrite <- Hw. exact H.
    + rewrite H in Hlen. cbn [List.length] in Hlen. lia.
  - intros _. left. apply orb_true_r.
Qed.

Lemma X10_empty_text_cause_witness :
  fetch_fails (requests_get ex_env (requests_made initial_state) ex_link2) = true \/
  exists sp : soup,
    requests_get ex_env (requests_made initial_state) ex_link2 = Response 200 (Ret sp) /\
    soup_get_text sp = [].
Proof.
  apply (X10_empty_text_cause ex_env ex_link2 initial_state).
  - vm_compute. reflexivity.
  - vm_compute. reflexivity.
Defined.

(** X11. When the model loads and the first listing page comes back with
    a status other than 200 or without items, the run sends that one
    request, writes "No executive orders found." and shows neither the
    date input nor a table. *)
Theorem X11_nothing_found (E : env) (summarizer : str -> result str) (fuel : nat) :
  pipeline E = Ret summarizer ->
  nothing_listed (requests_get E 0 (page_url 1)) = true ->
  exists m : message,
    main E (S fuel) initial_state =
      Some (Ret tt,
            mkState ∅ (EvWrite MsgNoneFound :: EvWrite m :: EvGet (page_url 1)
                       :: EvWrite (MsgFetchingPage (page_url 1))
                       :: trace (ready initial_state))).
Proof.
  intros Hp Hnone. rewrite main_unfold, Hp.
  unfold fetch_executive_orders. cbn [pages_loop]. rewrite page_body_unfold.
  change (requests_made (ready initial_state)) with 0.
  destruct (requests_get E 0 (page_url 1)) as [e|st [sp|e]]; cbn [nothing_listed] in Hnone.
  - discriminate.
  - destruct (negb (st =? 200)%Z).
    + rewrite render_spec. eexists. reflexivity.
    + destruct (soup_select_items sp); [|discriminate].
      rewrite render_spec. eexists. reflexivity.
  - destruct (negb (st =? 200)%Z); [|discriminate].
    rewrite render_spec. eexists. reflexivity.
Qed.

Lemma X11_nothing_found_witness :
  exists m : message,
    main ex_empty_env 1 initial_state =
      Some (Ret tt,
            mkState ∅ (EvWrite MsgNoneFound :: EvWrite m :: EvGet (page_url 1)
                       :: EvWrite (MsgFetchingPage (page_url 1))
                       :: trace (ready initial_state))).
Proof.
  apply (X11_nothing_found ex_empty_env ex_summarizer 0); reflexivity.
Defined.

(** ** The order of the effects *)

(** X12. A complete run is a sequence of three parts.  First the page is
    set up and the model is loaded, once; then come the events of the
    scrape, which are log lines, requests and calls of the model only;
    last comes the end of [main], which sends no request and calls no
    model: either the line "No executive orders found.", or the date
    input, a log line and the table. *)
Theorem X12_three_parts (E : env) (fuel : nat) (s' : state) :
  main E fuel initial_state = Some (Ret tt, s') ->
  exists (summarizer : str -> result str) (orders : list order)
         (s2 : state) (evs : list event),
    fetch_executive_orders E summarizer fuel (ready initial_state)
      = Some (Ret orders, s2) /\
    trace s' =
      render_events E orders ++ evs ++
      [EvPipeline; EvWrite MsgInitializing; EvWrite MsgFetchingOrders; EvTitle; EvHtml] /\
    forallb scrape_event evs = true /\
    forallb (fun e => negb (is_get e || is_summarize e)) (render_events E orders) = true.
Proof.
  intros Hmain.
  apply main_complete in Hmain as (summarizer & orders & s2 & _ & Hrun & ->).
  pose proof Hrun as Hw.
  apply scrape_walked in Hw as (pages & new & Hw & _ & _).
  destruct Hw as (_ & _ & _ & (evs & Hevs & Hall) & _).
  exists summarizer, orders, s2, evs. split; [exact Hrun|].
  cbn [trace]. rewrite Hevs. split; [reflexivity|]. split; [exact Hall|].
  destruct orders; reflexivity.
Qed.

Lemma X12_three_parts_witness :
  exists (summarizer : str -> result str) (orders : list order)
         (s2 : state) (evs : list event),
    fetch_executive_orders ex_env summarizer 5 (ready initial_state)
      = Some (Ret orders, s2) /\
    trace ex_final =
      render_events ex_env orders ++ evs ++
      [EvPipeline; EvWrite MsgInitializing; EvWrite MsgFetchingOrders; EvTitle; EvHtml] /\
    forallb scrape_event evs = true /\
    forallb (fun e => negb (is_get e || is_summarize e)) (render_events ex_env orders) = true.
Proof.
  apply (X12_three_parts ex_env 5 ex_final).
  vm_cast_no_check (@eq_refl _ (Some (Ret tt, ex_final))).
Defined.

(** ** A page without a usable item *)

Lemma filter_all_lacking (E : env) (items : list item) :
  forallb (item_lacks E) items = true ->
  List.filter (fun it => negb (item_lacks E it)) items = [].
Proof.
  induction items as [|it rest IH]; [reflexivity|].
  cbn [forallb List.filter]. intros H. apply andb_prop in H as [Hit Hrest].
  rewrite Hit. cbn [negb]. exact (IH Hrest).
Qed.

(** X13. A listing page served with status 200 on which every item lacks
    something ends the pagination: the loop returns the orders it had,
    having sent the request for that page and no other, so that later
    pages are never asked for. *)
Theorem X13_page_without_orders_stops (E : env) (summarizer : str -> result str)
    (fuel page : nat) (orders : list order) (s : state) (sp : soup) :
  requests_get E (requests_made s) (page_url page) = Response 200 (Ret sp) ->
  forallb (item_lacks E) (soup_select_items sp) = true ->
  exists s' : state,
    pages_loop E summarizer (S fuel) page orders s = Some (Ret orders, s') /\
    requests_made s' = requests_made s + 1.
Proof.
  intros Hr Hall. cbn [pages_loop]. rewrite page_body_unfold, Hr.
  cbn [Z.eqb Pos.eqb negb].
  destruct (soup_select_items sp) as [|it items] eqn:Hitems.
  - eexists. split; [reflexivity|]. unfold requests_made, listed, events_of.
    cbn [trace List.filter is_get List.length]. lia.
  - destruct (items_loop_walked E summarizer (it :: items) [] (listed page s))
      as (new & s1 & Heq & Hf & Hw).
    assert (Hnew : new = []).
    { apply (f_equal (@List.length _)) in Hf.
      rewrite length_map, omap_item_fields_length, (filter_all_lacking E _ Hall) in Hf.
      destruct new; [reflexivity | discriminate Hf]. }
    subst new. rewrite Heq. cbn [app]. eexists. split; [reflexivity|].
    destruct Hw as (_ & Hlo & Hhi & _). cbn [List.length] in Hhi.
    rewrite requests_made_write.
    assert (Hl : requests_made (listed page s) = requests_made s + 1).
    { unfold requests_made, listed, events_of.
      cbn [trace List.filter is_get List.length]. lia. }
    destruct s1 as [c1 t1]. cbn [order_text_cache trace]. lia.
Qed.

Lemma X13_page_without_orders_stops_witness :
  exists s' : state,
    pages_loop ex_bad_env ex_summarizer 3 1 [] initial_state = Some (Ret [], s') /\
    requests_made s' = requests_made initial_state + 1.
Proof.
  apply (X13_page_without_orders_stops ex_bad_env ex_summarizer 2 1 []
           initial_state ex_bad_listing).
  - reflexivity.
  - vm_compute. reflexivity.
Defined.
